(** * File-Store: the metadata and recommendation helper (ai_helper.py)

    A shallow embedding of the classification, preference tracking,
    recommendation, similarity and categorisation functions of
    [ai_helper.py], followed by the properties established about them.

    Conventions of the embedding.
    - A Python [str] is the [string] of its UTF-8 bytes.  Equality,
      [in] and [split] for the one-byte separator "." act on the bytes
      as they act on the characters; [len] and slices of a [str] count
      characters ([Py.len], [Py.prefix]).  The built-in [str.lower], which
      follows the Unicode case tables, is a parameter, [lower]; on ASCII
      text it is [Py.ascii_lower].
    - The module-level dictionaries [file_metadata] and [user_preferences]
      are passed explicitly; functions that mutate them return the new store.
      Their iteration order is never observed, so they are [gmap]s.
    - [stored_files] (the catalog) is iterated, so it is the list of its
      [items()] in iteration order; being a [dict], its keys are distinct.
    - A key that may be absent from a record ([dict.get]) is an [option]
      field; [None] also stands for Python's [None] argument.  The keys
      "tags" and "access_count" are only ever read with their defaults
      [[]] and [0], so an absent key is the field holding that default.
    - Counts are Python integers, hence [Z]; the properties are stated for
      the natural numbers among them.
    - [datetime.now().isoformat()] is the argument [now]. *)

From Stdlib Require Import ZArith String Ascii List Sorted Permutation Lia.
From stdpp Require Import gmap strings list fin_maps.

#[local] Set Warnings "-clear-no-such-hyp".
#[local] Set Default Proof Using "Type".

Local Open Scope string_scope.
Local Open Scope Z_scope.
Local Open Scope list_scope.

(** ** Python primitives used by the module *)

Module Py.

(** Truthiness of an optional string: [None] and [""] are falsy. *)
Definition truthy (o : option string) : bool :=
  match o with
  | Some s => negb (String.eqb s "")
  | None => false
  end.

(** [c in s] for a one-character needle. *)
Fixpoint contains (c : ascii) (s : string) : bool :=
  match s with
  | EmptyString => false
  | String d s' => if Ascii.eqb d c then true else contains c s'
  end.

(** [s.split(c)] for a one-character separator: never empty. *)
Fixpoint split (c : ascii) (s : string) : list string :=
  match s with
  | EmptyString => [EmptyString]
  | String d s' =>
      if Ascii.eqb d c then EmptyString :: split c s'
      else match split c s' with
           | seg :: rest => String d seg :: rest
           | [] => [String d EmptyString]
           end
  end.

(** [l[-1]] on a list of strings known to be non-empty. *)
Definition last_item (l : list string) : string := default "" (last l).

Definition lower_ascii (c : ascii) : ascii :=
  let n := nat_of_ascii c in
  if ((65 <=? n) && (n <=? 90))%nat then ascii_of_nat (n + 32) else c.

(** [s.lower()] on ASCII text: the letters A to Z go to a to z. *)
Fixpoint ascii_lower (s : string) : string :=
  match s with
  | EmptyString => EmptyString
  | String c s' => String (lower_ascii c) (ascii_lower s')
  end.

(** The text holds ASCII characters only. *)
Fixpoint is_ascii (s : string) : bool :=
  match s with
  | EmptyString => true
  | String c s' => (nat_of_ascii c <? 128)%nat && is_ascii s'
  end.

(** What is known of the built-in [str.lower]: on ASCII text it is
    [ascii_lower]. *)
Definition lower_on_ascii (lower : string -> string) : Prop :=
  forall s, is_ascii s = true -> lower s = ascii_lower s.

(** A byte that continues a UTF-8 character (10xxxxxx). *)
Definition is_continuation (c : ascii) : bool :=
  let n := nat_of_ascii c in ((128 <=? n) && (n <? 192))%nat.

(** [len(s)]: the number of characters, one per byte that starts one. *)
Fixpoint len (s : string) : nat :=
  match s with
  | EmptyString => O
  | String c s' => if is_continuation c then len s' else S (len s')
  end.

(** [s[:n]] for a natural [n]: the first [n] characters, each with the
    bytes that continue it. *)
Fixpoint prefix (n : nat) (s : string) : string :=
  match s with
  | EmptyString => EmptyString
  | String c s' =>
      if is_continuation c then String c (prefix n s')
      else match n with
           | O => EmptyString
           | S n' => String c (prefix n' s')
           end
  end.

(** [x in l] for a list literal of strings. *)
Definition in_list (x : string) (l : list string) : bool :=
  bool_decide (x ∈ l).

(** [l[:c]] for an integer [c]: a negative bound counts from the end. *)
Definition slice_to {A} (l : list A) (c : Z) : list A :=
  if 0 <=? c then take (Z.to_nat c) l
  else take (length l - Z.to_nat (- c)) l.

(** [l.remove(x)]: deletes the first occurrence (the caller checks
    membership first, so the [ValueError] case does not arise). *)
Fixpoint remove (x : string) (l : list string) : list string :=
  match l with
  | [] => []
  | y :: l' => if String.eqb y x then l' else y :: remove x l'
  end.

(** [d[k] = v] on an insertion-ordered [dict], given as the list of its
    items: an existing key keeps its position, a new key goes last. *)
Fixpoint dict_set {V} (k : string) (v : V) (d : list (string * V))
    : list (string * V) :=
  match d with
  | [] => [(k, v)]
  | (k', v') :: d' =>
      if String.eqb k' k then (k, v) :: d' else (k', v') :: dict_set k v d'
  end.

(** [d.get(k)] on the list of items of a [dict]. *)
Fixpoint dict_get {V} (k : string) (d : list (string * V)) : option V :=
  match d with
  | [] => None
  | (k', v') :: d' => if String.eqb k' k then Some v' else dict_get k d'
  end.

(** One step of a stable descending sort on the second component: [x]
    passes the entries that are strictly greater and stops before the first
    entry that is not. *)
Fixpoint insert_desc {K} (x : K * Z) (l : list (K * Z)) : list (K * Z) :=
  match l with
  | [] => [x]
  | y :: l' => if x.2 <? y.2 then y :: insert_desc x l' else x :: y :: l'
  end.

(** [sorted(items, key=lambda x: x[1], reverse=True)].  Python's sort is
    stable, also with [reverse=True]: entries with equal keys keep their
    original order. *)
Fixpoint sorted_desc {K} (items : list (K * Z)) : list (K * Z) :=
  match items with
  | [] => []
  | x :: items' => insert_desc x (sorted_desc items')
  end.

End Py.

(** ** Data model *)

(** A record of [file_metadata]. *)
Record metadata := Metadata {
  md_category : option string;
  md_extension : string;
  md_tags : list string;
  md_description : option string;
  md_ai_analyzed : bool;
  md_last_accessed : option string;
  md_access_count : Z;
  md_created_at : string
}.

(** A record of [user_preferences]. *)
Record preferences := Preferences {
  favorite_categories : gmap string Z;
  favorite_tags : gmap string Z;
  recently_accessed : list string;
  explicit_preferences : gmap string string
}.

(** A file descriptor, as stored in [stored_files]. *)
Record file_info := FileInfo {
  fi_name : option string;
  fi_type : option string;
  fi_size : option Z;
  fi_unique_id : option string
}.

Definition DEFAULT_CATEGORIES : list string :=
  ["Documents"; "Images"; "Videos"; "Audio"; "Archives";
   "Presentations"; "Spreadsheets"; "Code"; "Books"; "Other"].

Section Program.

(** The built-in [str.lower]. *)
Variable lower : string -> string.

(** ** Classifier *)

(** The extension of a file name, as both classifiers compute it. *)
Definition extension_of (file_name : string) : string :=
  if Py.contains "." file_name
  then lower (Py.last_item (Py.split "." file_name))
  else "".

(** The [elif] chain of [analyze_file_name] for the "document" type. *)
Definition document_category (extension : string) : string :=
  if Py.in_list extension ["pdf"; "doc"; "docx"; "txt"; "rtf"] then "Documents"
  else if Py.in_list extension ["jpg"; "jpeg"; "png"; "gif"; "bmp"; "svg"; "webp"] then "Images"
  else if Py.in_list extension ["mp4"; "avi"; "mov"; "wmv"; "flv"; "mkv"; "webm"] then "Videos"
  else if Py.in_list extension ["mp3"; "wav"; "ogg"; "aac"; "flac"; "m4a"] then "Audio"
  else if Py.in_list extension ["zip"; "rar"; "tar"; "gz"; "7z"] then "Archives"
  else if Py.in_list extension ["ppt"; "pptx"] then "Presentations"
  else if Py.in_list extension ["xls"; "xlsx"; "csv"] then "Spreadsheets"
  else if Py.in_list extension ["py"; "js"; "html"; "css"; "java"; "cpp"; "c"; "php"; "go"; "rb"] then "Code"
  else if Py.in_list extension ["epub"; "mobi"; "azw"; "azw3"; "fb2"] then "Books"
  else "Other".

(** [analyze_file_name].  With string arguments no statement of the [try]
    body raises, so the [except] branch is not reached. *)
Definition analyze_file_name (now : string) (file_name file_type : string) : metadata :=
  let extension := extension_of file_name in
  let category :=
    if String.eqb file_type "photo" then "Images"
    else if String.eqb file_type "video" then "Videos"
    else if String.eqb file_type "audio" then "Audio"
    else if String.eqb file_type "document" then document_category extension
    else "Other" in
  {| md_category := Some category;
     md_extension := extension;
     md_tags := [];
     md_description := None;
     md_ai_analyzed := false;
     md_last_accessed := None;
     md_access_count := 0;
     md_created_at := now |}.

(** The file content handed to [analyze_file_with_ai]: a [str] or bytes. *)
Inductive file_content :=
| TextContent (text : string)
| BinaryContent (data : list ascii).

(** What the prompt of [analyze_file_with_ai] is built from. *)
Record ai_request := AiRequest {
  rq_file_name : string;
  rq_file_type : string;
  rq_file_size : Z;
  rq_content_description : string
}.

(** The JSON object decoded from the model's reply. *)
Record ai_result := AiResult {
  rs_category : option string;
  rs_tags : option (list string);
  rs_description : option string
}.

Definition content_description (content : option file_content) : string :=
  match content with
  | Some (TextContent text) =>
      if String.eqb text "" then "No file content available for analysis."
      else if (500 <? Py.len text)%nat
           then ("File content excerpt: " ++ Py.prefix 500 text ++ "...")%string
           else ("File content: " ++ text)%string
  | Some (BinaryContent data) =>
      match data with
      | [] => "No file content available for analysis."
      | _ => "Binary file content is available for analysis."
      end
  | None => "No file content available for analysis."
  end.

Section Classifier.

(** The configured key, and the external capability: the chat completion
    call followed by [json.loads] of the reply.  [None] is any exception
    raised inside the [try] block: by the call, by indexing or decoding
    the reply, or by slicing tags that cannot be sliced.  The reply is
    typed as the data model types a record: its category is a string when
    present and its tags are a list of strings; a reply with a null or
    non-string category, which the code would store as it is, is outside
    this type. *)
Variable OPENAI_API_KEY : string.
Variable classify : ai_request -> option ai_result.

(** [analyze_file_with_ai]. *)
Definition analyze_file_with_ai (now : string) (info : file_info)
    (content : option file_content) : metadata :=
  let fallback :=
    analyze_file_name now (default "" (fi_name info))
                      (default "document" (fi_type info)) in
  if String.eqb OPENAI_API_KEY "" then fallback
  else
    let file_name := default "" (fi_name info) in
    let file_type := default "document" (fi_type info) in
    let file_size := default 0 (fi_size info) in
    match classify (AiRequest file_name file_type file_size
                              (content_description content)) with
    | None => fallback
    | Some result =>
        {| md_category := Some (default "Other" (rs_category result));
           md_tags := Py.slice_to (default [] (rs_tags result)) 5;
           md_description := Some (default "" (rs_description result));
           md_extension := extension_of file_name;
           md_ai_analyzed := true;
           md_last_accessed := None;
           md_access_count := 0;
           md_created_at := now |}
    end.

End Classifier.

(** ** Access tracking and the preference tracker *)

(** [track_file_access]. *)
Definition track_file_access (now : string)
    (file_metadata : gmap string metadata) (file_id : string)
    : gmap string metadata :=
  match file_metadata !! file_id with
  | Some metadata =>
      <[file_id :=
          {| md_category := md_category metadata;
             md_extension := md_extension metadata;
             md_tags := md_tags metadata;
             md_description := md_description metadata;
             md_ai_analyzed := md_ai_analyzed metadata;
             md_last_accessed := Some now;
             md_access_count := md_access_count metadata + 1;
             md_created_at := md_created_at metadata |}]> file_metadata
  | None => file_metadata
  end.

(** [d.get(k, 0)] on a weight dictionary. *)
Definition weight (d : gmap string Z) (k : string) : Z := default 0 (d !! k).

(** [d[k] = d.get(k, 0) + n]. *)
Definition bump (n : Z) (k : string) (d : gmap string Z) : gmap string Z :=
  <[k := weight d k + n]> d.

Definition empty_preferences : preferences :=
  {| favorite_categories := ∅; favorite_tags := ∅;
     recently_accessed := []; explicit_preferences := ∅ |}.

Definition bump_category (n : Z) (c : string) (p : preferences) : preferences :=
  {| favorite_categories := bump n c (favorite_categories p);
     favorite_tags := favorite_tags p;
     recently_accessed := recently_accessed p;
     explicit_preferences := explicit_preferences p |}.

Definition bump_tag (n : Z) (p : preferences) (t : string) : preferences :=
  {| favorite_categories := favorite_categories p;
     favorite_tags := bump n t (favorite_tags p);
     recently_accessed := recently_accessed p;
     explicit_preferences := explicit_preferences p |}.

Definition set_recently_accessed (r : list string) (p : preferences) : preferences :=
  {| favorite_categories := favorite_categories p;
     favorite_tags := favorite_tags p;
     recently_accessed := r;
     explicit_preferences := explicit_preferences p |}.

(** [user_prefs["explicit_preferences"].update(e)]: keys of [e] win. *)
Definition merge_explicit (e : gmap string string) (p : preferences) : preferences :=
  {| favorite_categories := favorite_categories p;
     favorite_tags := favorite_tags p;
     recently_accessed := recently_accessed p;
     explicit_preferences := e ∪ explicit_preferences p |}.

(** The block of [update_user_preferences] guarded by
    [if file_id and file_id in file_metadata], run on the record [meta] of
    [file_id].  It returns the updated preferences together with the new
    value of the local variable [category], which the block reassigns. *)
Definition access_block (meta : metadata) (file_id : string)
    (user_prefs : preferences) : preferences * option string :=
  let recent := recently_accessed user_prefs in
  let recent := if bool_decide (file_id ∈ recent) then Py.remove file_id recent else recent in
  let recent := file_id :: recent in
  let user_prefs := set_recently_accessed (Py.slice_to recent 10) user_prefs in
  let category := md_category meta in
  let user_prefs :=
    match category with
    | Some c => if Py.truthy category then bump_category 1 c user_prefs else user_prefs
    | None => user_prefs
    end in
  let user_prefs := fold_left (bump_tag 1) (md_tags meta) user_prefs in
  (user_prefs, category).

(** [update_user_preferences]; [user_id] is the key [str(user_id)]. *)
Definition update_user_preferences
    (file_metadata : gmap string metadata)
    (user_preferences : gmap string preferences)
    (user_id : string) (file_id category : option string)
    (tags : option (list string))
    (explicit_preference : option (gmap string string))
    : gmap string preferences :=
  let user_preferences :=
    match user_preferences !! user_id with
    | None => <[user_id := empty_preferences]> user_preferences
    | Some _ => user_preferences
    end in
  let user_prefs := default empty_preferences (user_preferences !! user_id) in
  let '(user_prefs, category) :=
    match file_id with
    | Some fid =>
        if Py.truthy file_id then
          match file_metadata !! fid with
          | Some meta => access_block meta fid user_prefs
          | None => (user_prefs, category)
          end
        else (user_prefs, category)
    | None => (user_prefs, category)
    end in
  let user_prefs :=
    match category with
    | Some c => if Py.truthy category then bump_category 3 c user_prefs else user_prefs
    | None => user_prefs
    end in
  let user_prefs :=
    match tags with
    | Some ts => fold_left (bump_tag 3) ts user_prefs
    | None => user_prefs
    end in
  let user_prefs :=
    match explicit_preference with
    | Some e => merge_explicit e user_prefs
    | None => user_prefs
    end in
  <[user_id := user_prefs]> user_preferences.

(** [record_access]: the call the bot makes when a file is stored or
    downloaded, [update_user_preferences(user_id, unique_id)]. *)
Definition record_access (file_metadata : gmap string metadata)
    (user_preferences : gmap string preferences)
    (user_id file_id : string) : gmap string preferences :=
  update_user_preferences file_metadata user_preferences user_id
                          (Some file_id) None None None.

(** ** Recommender, similarity finder and categorizer *)

(** [file_info.get("unique_id", file_id)]. *)
Definition meta_id_of (file_id : string) (info : file_info) : string :=
  default file_id (fi_unique_id info).

(** The score [get_recommendations] gives one catalog entry. *)
Definition recommendation_score (file_metadata : gmap string metadata)
    (fav_categories fav_tags : gmap string Z)
    (file_id : string) (info : file_info) : Z :=
  let score := 0 in
  let meta_id := meta_id_of file_id info in
  match file_metadata !! meta_id with
  | Some meta =>
      let category := md_category meta in
      let score :=
        match category with
        | Some c =>
            if Py.truthy category then
              match fav_categories !! c with
              | Some w => score + w
              | None => score
              end
            else score
        | None => score
        end in
      fold_left (fun score tag =>
                   match fav_tags !! tag with
                   | Some w => score + w
                   | None => score
                   end) (md_tags meta) score
  | None => score
  end.

(** [get_recommendations]; [user_id] is the key [str(user_id)].  On
    well-typed stores no statement of the [try] body raises. *)
Definition get_recommendations (file_metadata : gmap string metadata)
    (user_preferences : gmap string preferences)
    (user_id : string) (stored_files : list (string * file_info))
    (count : Z) : list string :=
  match user_preferences !! user_id with
  | None =>
      let file_ids := stored_files.*1 in
      Py.slice_to file_ids (Z.min count (Z.of_nat (length file_ids)))
  | Some user_prefs =>
      let fav_categories := favorite_categories user_prefs in
      let fav_tags := favorite_tags user_prefs in
      let recent_files := recently_accessed user_prefs in
      let file_scores :=
        fold_left
          (fun file_scores '(file_id, info) =>
             if bool_decide (file_id ∈ recent_files) then file_scores
             else Py.dict_set file_id
                    (recommendation_score file_metadata fav_categories
                                          fav_tags file_id info)
                    file_scores)
          stored_files [] in
      let sorted_files := Py.sorted_desc file_scores in
      (Py.slice_to sorted_files count).*1
  end.

(** The score [get_similar_files] gives the record [meta] of an entry. *)
Definition similarity_score (ref_category : option string)
    (ref_tags : gset string) (meta : metadata) : Z :=
  let score := 0 in
  let score :=
    if bool_decide (md_category meta = ref_category) then score + 5 else score in
  let file_tags : gset string := list_to_set (md_tags meta) in
  let common_tags := ref_tags ∩ file_tags in
  score + Z.of_nat (size common_tags) * 2.

(** [stored_files.get(file_id, {}).get("unique_id", file_id)]. *)
Definition reference_meta_id (file_id : string)
    (stored_files : list (string * file_info)) : string :=
  match Py.dict_get file_id stored_files with
  | Some info => meta_id_of file_id info
  | None => file_id
  end.

(** [get_similar_files].  On well-typed stores no statement of the [try]
    body raises. *)
Definition get_similar_files (file_metadata : gmap string metadata)
    (file_id : string) (stored_files : list (string * file_info))
    (count : Z) : list string :=
  let meta_id := reference_meta_id file_id stored_files in
  match file_metadata !! meta_id with
  | None => []
  | Some ref_metadata =>
      let ref_category := md_category ref_metadata in
      let ref_tags : gset string := list_to_set (md_tags ref_metadata) in
      let similarity_scores :=
        fold_left
          (fun similarity_scores '(f_id, info) =>
             if String.eqb f_id file_id then similarity_scores
             else
               match file_metadata !! meta_id_of f_id info with
               | None => similarity_scores
               | Some meta =>
                   Py.dict_set f_id (similarity_score ref_category ref_tags meta)
                               similarity_scores
               end)
          stored_files [] in
      let sorted_files := Py.sorted_desc similarity_scores in
      (Py.slice_to sorted_files count).*1
  end.

(** [categories[category].append(file_id)]. *)
Fixpoint dict_append (category file_id : string)
    (categories : list (string * list string)) : list (string * list string) :=
  match categories with
  | [] => []
  | (c, files) :: rest =>
      if String.eqb c category then (c, files ++ [file_id]) :: rest
      else (c, files) :: dict_append category file_id rest
  end.

(** [organize_files_by_category]. *)
Definition organize_files_by_category (file_metadata : gmap string metadata)
    (stored_files : list (string * file_info))
    : list (string * list string) :=
  let categories := map (fun category => (category, [])) DEFAULT_CATEGORIES in
  let categories :=
    fold_left
      (fun categories '(file_id, info) =>
         let meta_id := meta_id_of file_id info in
         let category :=
           match file_metadata !! meta_id with
           | Some meta => default "Other" (md_category meta)
           | None => "Other"
           end in
         if bool_decide (category ∈ categories.*1)
         then dict_append category file_id categories
         else dict_append "Other" file_id categories)
      stored_files categories in
  List.filter (fun '(cat, files) => negb (bool_decide (files = []))) categories.

(** ** Statements read from the specification *)

(** The heuristic classifier's lookup table as one flat mapping from
    extension to category. *)
Definition EXTENSION_TABLE : list (string * string) :=
  [("pdf", "Documents"); ("doc", "Documents"); ("docx", "Documents");
   ("txt", "Documents"); ("rtf", "Documents");
   ("jpg", "Images"); ("jpeg", "Images"); ("png", "Images"); ("gif", "Images");
   ("bmp", "Images"); ("svg", "Images"); ("webp", "Images");
   ("mp4", "Videos"); ("avi", "Videos"); ("mov", "Videos"); ("wmv", "Videos");
   ("flv", "Videos"); ("mkv", "Videos"); ("webm", "Videos");
   ("mp3", "Audio"); ("wav", "Audio"); ("ogg", "Audio"); ("aac", "Audio");
   ("flac", "Audio"); ("m4a", "Audio");
   ("zip", "Archives"); ("rar", "Archives"); ("tar", "Archives");
   ("gz", "Archives"); ("7z", "Archives");
   ("ppt", "Presentations"); ("pptx", "Presentations");
   ("xls", "Spreadsheets"); ("xlsx", "Spreadsheets"); ("csv", "Spreadsheets");
   ("py", "Code"); ("js", "Code"); ("html", "Code"); ("css", "Code");
   ("java", "Code"); ("cpp", "Code"); ("c", "Code"); ("php", "Code");
   ("go", "Code"); ("rb", "Code");
   ("epub", "Books"); ("mobi", "Books"); ("azw", "Books"); ("azw3", "Books");
   ("fb2", "Books")].

(** The direct mapping of the transport-level types. *)
Definition TYPE_TABLE : list (string * string) :=
  [("photo", "Images"); ("video", "Videos"); ("audio", "Audio")].

(** The category the heuristic policy assigns, in the specification's
    words: the transport type decides when it is photo, video or audio; a
    document goes through the extension table; everything else is Other. *)
Definition heuristic_category (file_type extension : string) : string :=
  match Py.dict_get file_type TYPE_TABLE with
  | Some category => category
  | None =>
      if String.eqb file_type "document"
      then default "Other" (Py.dict_get extension EXTENSION_TABLE)
      else "Other"
  end.

(** [seg] is the last dot-delimited segment of a name that has a dot. *)
Definition last_dot_segment (file_name seg : string) : Prop :=
  Py.contains "." seg = false ∧
  ∃ prefix, file_name = (prefix ++ String "." seg)%string.

(** [ranked] is the stable descending ranking of [scored]: the same
    entries, scores never increasing, and entries of equal score in the
    order they have in [scored]. *)
Definition ranked_desc {K} (scored ranked : list (K * Z)) : Prop :=
  ranked ≡ₚ scored ∧
  StronglySorted (λ a b, b.2 ≤ a.2) ranked ∧
  ∀ s, filter (λ e, e.2 = s) ranked = filter (λ e, e.2 = s) scored.

(** The loop shared by the two ranking functions: entries for which [f]
    gives no score are skipped, the others are assigned in the score
    dictionary. *)
Definition score_loop {V} (f : string → V → option Z)
    (stored_files : list (string * V)) (scores : list (string * Z))
    : list (string * Z) :=
  fold_left
    (fun scores '(file_id, info) =>
       match f file_id info with
       | Some score => Py.dict_set file_id score scores
       | None => scores
       end)
    stored_files scores.

(** The recommender's score in the specification's words:
    [favorite_categories.get(category, 0)] plus the sum of
    [favorite_tags.get(tag, 0)] over the tags; 0 without a record. *)
Definition preference_score (file_metadata : gmap string metadata)
    (prefs : preferences) (file_id : string) (info : file_info) : Z :=
  match file_metadata !! meta_id_of file_id info with
  | Some meta =>
      match md_category meta with
      | Some c => weight (favorite_categories prefs) c
      | None => 0
      end
      + foldr Z.add 0 (weight (favorite_tags prefs) <$> md_tags meta)
  | None => 0
  end.

(** The similarity score in the specification's words: 5 for the same
    category plus 2 for every tag in common. *)
Definition tag_overlap_score (ref meta : metadata) : Z :=
  (if decide (md_category meta = md_category ref) then 5 else 0)
  + 2 * Z.of_nat (size ((list_to_set (md_tags ref) : gset string)
                        ∩ list_to_set (md_tags meta))).

(** The category under which the categorizer files an entry. *)
Definition filed_category (file_metadata : gmap string metadata)
    (file_id : string) (info : file_info) : string :=
  match file_metadata !! meta_id_of file_id info with
  | Some meta => default "Other" (md_category meta)
  | None => "Other"
  end.

(** The loop of [organize_files_by_category], started from any dictionary
    whose keys are the fixed categories. *)
Definition organize_loop (file_metadata : gmap string metadata)
    (stored_files : list (string * file_info))
    (categories : list (string * list string)) : list (string * list string) :=
  fold_left
    (fun categories '(file_id, info) =>
       let category := filed_category file_metadata file_id info in
       if bool_decide (category ∈ categories.*1)
       then dict_append category file_id categories
       else dict_append "Other" file_id categories)
    stored_files categories.

(** [file_id] is listed under [category]. *)
Definition placed (categories : list (string * list string))
    (category file_id : string) : Prop :=
  ∃ files, (category, files) ∈ categories ∧ file_id ∈ files.

(** Read-only views of the two stores. *)
Definition access_count_of (file_metadata : gmap string metadata)
    (file_id : string) : Z :=
  default 0 (md_access_count <$> file_metadata !! file_id).

Definition prefs_of (user_preferences : gmap string preferences)
    (user_id : string) : preferences :=
  default empty_preferences (user_preferences !! user_id).

Definition category_weight (user_preferences : gmap string preferences)
    (user_id category : string) : Z :=
  weight (favorite_categories (prefs_of user_preferences user_id)) category.

Definition tag_weight (user_preferences : gmap string preferences)
    (user_id tag : string) : Z :=
  weight (favorite_tags (prefs_of user_preferences user_id)) tag.

Definition recent_of (user_preferences : gmap string preferences)
    (user_id : string) : list string :=
  recently_accessed (prefs_of user_preferences user_id).

(** The bound and uniqueness invariant of [recently_accessed]. *)
Definition recent_ok (prefs : preferences) : Prop :=
  (length (recently_accessed prefs) ≤ 10)%nat ∧ NoDup (recently_accessed prefs).

(** [n] successive accesses to one file, at the given times. *)
Definition track_file_accesses (times : list string)
    (file_metadata : gmap string metadata) (file_id : string)
    : gmap string metadata :=
  fold_left (fun fm now => track_file_access now fm file_id) times file_metadata.

(** The effect of [update_user_preferences] on the record of the user it
    is called for: the body of the function after the record has been
    fetched. *)
Definition updated_record (file_metadata : gmap string metadata)
    (user_prefs : preferences) (file_id category : option string)
    (tags : option (list string))
    (explicit_preference : option (gmap string string)) : preferences :=
  let '(user_prefs, category) :=
    match file_id with
    | Some fid =>
        if Py.truthy file_id then
          match file_metadata !! fid with
          | Some meta => access_block meta fid user_prefs
          | None => (user_prefs, category)
          end
        else (user_prefs, category)
    | None => (user_prefs, category)
    end in
  let user_prefs :=
    match category with
    | Some c => if Py.truthy category then bump_category 3 c user_prefs else user_prefs
    | None => user_prefs
    end in
  let user_prefs :=
    match tags with
    | Some ts => fold_left (bump_tag 3) ts user_prefs
    | None => user_prefs
    end in
  match explicit_preference with
  | Some e => merge_explicit e user_prefs
  | None => user_prefs
  end.

(** One record never loses weight with respect to another. *)
Definition weights_le (p p' : preferences) : Prop :=
  (∀ k, weight (favorite_categories p) k ≤ weight (favorite_categories p') k) ∧
  (∀ k, weight (favorite_tags p) k ≤ weight (favorite_tags p') k).

(** What every record built by the tracker satisfies. *)
Definition record_ok (p : preferences) : Prop :=
  recent_ok p ∧ weight (favorite_categories p) "" = 0.

(** The preference stores the tracker can build, starting from the empty
    store; the metadata store may differ from call to call. *)
Inductive tracker_reachable : gmap string preferences → Prop :=
| reachable_empty : tracker_reachable ∅
| reachable_update fm up user_id file_id category tags explicit_preference :
    tracker_reachable up →
    tracker_reachable
      (update_user_preferences fm up user_id file_id category tags
                               explicit_preference).

(** How often [t] occurs in [tags]. *)
Definition occurrences (t : string) (tags : list string) : Z :=
  Z.of_nat (length (filter (λ x, x = t) tags)).

(** Sample stores for the worked examples: a Code file and a file
    without metadata, and a user whose only signal is Code with weight 4. *)
Definition sample_metadata : gmap string metadata :=
  {["f1" := Metadata (Some "Code") "py" ["python"] None false None 0 "t0"]}.

Definition sample_catalog : list (string * file_info) :=
  [("f0", FileInfo (Some "notes") (Some "document") (Some 12) None);
   ("f1", FileInfo (Some "main.py") (Some "document") (Some 40) (Some "f1"));
   ("f2", FileInfo (Some "lib.py") (Some "document") (Some 7) None)].

Definition sample_preferences : preferences :=
  {| favorite_categories := {["Code" := 4]}; favorite_tags := ∅;
     recently_accessed := ["f2"]; explicit_preferences := ∅ |}.

(** ** Callers in simple_bot.py *)

(** The category lookup of [handle_category_command]: the first fixed
    category that equals the requested name up to case. *)
Definition find_category (category_name : string) : option string :=
  List.find (fun cat => String.eqb (lower cat) (lower category_name))
            DEFAULT_CATEGORIES.

(** The listing loop of [handle_category_command] over the user's files:
    the entries whose metadata record carries [found_category]. *)
Definition category_files (file_metadata : gmap string metadata)
    (found_category : string) (user_files : list (string * file_info))
    : list (string * file_info) :=
  fold_left
    (fun category_files '(file_id, info) =>
       let meta_id := meta_id_of file_id info in
       match file_metadata !! meta_id with
       | Some meta =>
           if bool_decide (md_category meta = Some found_category)
           then category_files ++ [(file_id, info)]
           else category_files
       | None => category_files
       end)
    user_files [].

(** The tracking step of [handle_download]: the access is counted, then
    recorded for the user, both under the file's metadata identifier. *)
Definition track_download (now : string)
    (file_metadata : gmap string metadata)
    (user_preferences : gmap string preferences)
    (user_id file_id : string) (info : file_info)
    : gmap string metadata * gmap string preferences :=
  let unique_id := meta_id_of file_id info in
  let file_metadata := track_file_access now file_metadata unique_id in
  let user_preferences :=
    update_user_preferences file_metadata user_preferences user_id
                            (Some unique_id) None None None in
  (file_metadata, user_preferences).

Section Upload.

Variable OPENAI_API_KEY : string.
Variable classify : ai_request -> option ai_result.

(** The analysis step of [handle_document]: the new file is classified
    from its descriptor alone, its record is stored under [unique_id], and
    the upload is recorded as an access by the uploader. *)
Definition classify_upload (now : string)
    (file_metadata : gmap string metadata)
    (user_preferences : gmap string preferences)
    (user_id unique_id : string) (info : file_info)
    : gmap string metadata * gmap string preferences :=
  let metadata := analyze_file_with_ai OPENAI_API_KEY classify now info None in
  let file_metadata := <[unique_id := metadata]> file_metadata in
  let user_preferences :=
    update_user_preferences file_metadata user_preferences user_id
                            (Some unique_id) None None None in
  (file_metadata, user_preferences).

End Upload.

(** Two metadata stores that agree on the category and tags of every
    record. *)
Definition same_classification (fm fm' : gmap string metadata) : Prop :=
  ∀ k, (λ m, (md_category m, md_tags m)) <$> fm !! k
       = (λ m, (md_category m, md_tags m)) <$> fm' !! k.

(** The category under which the categorizer lists an entry: its filed
    category when that is one of the fixed ones, "Other" when it is not. *)
Definition listed_category (file_metadata : gmap string metadata)
    (file_id : string) (info : file_info) : string :=
  if bool_decide (filed_category file_metadata file_id info ∈ DEFAULT_CATEGORIES)
  then filed_category file_metadata file_id info
  else "Other".

(** The identifiers of a catalog listed under [category], in catalog
    order. *)
Definition listed_under (file_metadata : gmap string metadata)
    (category : string) (stored_files : list (string * file_info))
    : list string :=
  (filter (λ e, listed_category file_metadata e.1 e.2 = category) stored_files).*1.

(** A character of two bytes in UTF-8 (U+00E9). *)
Definition two_byte_character : string :=
  String (ascii_of_nat 195) (String (ascii_of_nat 169) EmptyString).

(** * Properties *)

(** ** Strings *)

Lemma split_shape c s :
  (Py.contains c s = false ∧ Py.split c s = [s]) ∨
  (Py.contains c s = true ∧
   ∃ prefix seg h t,
     s = (prefix ++ String c seg)%string ∧ Py.contains c seg = false ∧
     Py.split c s = h :: t ∧ last t = Some seg).
Proof.
  induction s as [|d s IH]; [by left|].
  cbn [Py.contains Py.split].
  destruct (Ascii.eqb d c) eqn:E.
  - apply Ascii.eqb_eq in E as ->. right. split; [done|].
    destruct IH as [[Hno Hs]|[_ (p & seg & h & t & -> & Hseg & Hs & Hl)]].
    + exists "", s, "", [s]. by rewrite Hs.
    + exists (String c p), seg, "", (h :: t). rewrite Hs.
      repeat split; try done.
      destruct t; [done|]. by rewrite last_cons, Hl.
  - destruct IH as [[Hno Hs]|[Hyes (p & seg & h & t & -> & Hseg & Hs & Hl)]].
    + left. by rewrite Hs.
    + right. split; [done|].
      exists (String d p), seg, (String d h), t. by rewrite Hs.
Qed.

Lemma split_last_segment s :
  Py.contains "." s = true →
  last_dot_segment s (Py.last_item (Py.split "." s)).
Proof.
  intros Hc. destruct (split_shape "." s) as [[Hno _]|[_ H]]; [congruence|].
  destruct H as (p & seg & h & t & -> & Hseg & Hs & Hl).
  rewrite Hs. unfold Py.last_item.
  destruct t; [done|]. rewrite last_cons, Hl. cbn. split; eauto.
Qed.

(** [x ∉ [a; b; ...]] from the disequalities in the context. *)
Ltac not_in_literal :=
  repeat (apply not_elem_of_cons; split; [congruence|]); apply not_elem_of_nil.

Lemma document_category_table extension :
  document_category extension =
  default "Other" (Py.dict_get extension EXTENSION_TABLE).
Proof.
  unfold EXTENSION_TABLE. cbn [Py.dict_get].
  repeat match goal with
         | |- context [String.eqb ?k extension] =>
             destruct (String.eqb_spec k extension) as [<-|?];
             [reflexivity|]
         end.
  unfold document_category, Py.in_list.
  repeat (rewrite bool_decide_eq_false_2 by not_in_literal).
  reflexivity.
Qed.

Lemma analyze_file_name_category now file_name file_type :
  md_category (analyze_file_name now file_name file_type) =
  Some (heuristic_category file_type (extension_of file_name)).
Proof.
  unfold analyze_file_name, heuristic_category, TYPE_TABLE.
  cbn [md_category Py.dict_get].
  rewrite <- document_category_table.
  rewrite !(String.eqb_sym _ file_type).
  by repeat destruct (String.eqb file_type _).
Qed.

Lemma is_ascii_app a b :
  Py.is_ascii (a ++ b)%string = Py.is_ascii a && Py.is_ascii b.
Proof.
  induction a as [|c a IH]; [done|].
  change (Py.is_ascii (String c (a ++ b)%string)
          = Py.is_ascii (String c a) && Py.is_ascii b).
  cbn [Py.is_ascii]. by rewrite IH, andb_assoc.
Qed.

Lemma last_dot_segment_ascii s seg :
  last_dot_segment s seg → Py.is_ascii s = true → Py.is_ascii seg = true.
Proof.
  intros [_ [p ->]]. rewrite is_ascii_app. cbn [Py.is_ascii].
  intros H. apply andb_true_iff in H as [_ H].
  by apply andb_true_iff in H as [_ H].
Qed.

(** On an ASCII name the extension is computed without reference to the
    case tables. *)
Lemma extension_of_ascii file_name :
  Py.lower_on_ascii lower → Py.is_ascii file_name = true →
  extension_of file_name =
  if Py.contains "." file_name
  then Py.ascii_lower (Py.last_item (Py.split "." file_name))
  else "".
Proof.
  intros Hlower Hascii. unfold extension_of.
  destruct (Py.contains "." file_name) eqn:Hc; [|done].
  apply Hlower, (last_dot_segment_ascii file_name); [|done].
  by apply split_last_segment.
Qed.

(** C4. Heuristic classification of any file name and transport type: the
    extension is empty when the name has no dot and otherwise is the
    lower-cased last dot-delimited segment, which on an ASCII name is that
    segment with the letters A to Z replaced by a to z; the category
    follows the transport type for photo, video and audio, the extension
    table for a document, and is Other otherwise; tags are empty, there is
    no description and the record is not marked as classified by the AI.
    A file named "report.pdf" of type "document" is a Documents file with
    extension "pdf", and so is "REPORT.PDF"; "Clip.final.MKV" is a Videos
    file with extension "mkv". *)
Theorem analyze_file_name_heuristic now file_name file_type :
  Py.lower_on_ascii lower →
  let m := analyze_file_name now file_name file_type in
  (if Py.contains "." file_name
   then ∃ seg, last_dot_segment file_name seg ∧ md_extension m = lower seg ∧
               (Py.is_ascii file_name = true →
                md_extension m = Py.ascii_lower seg)
   else md_extension m = "") ∧
  md_category m = Some (heuristic_category file_type (md_extension m)) ∧
  heuristic_category "photo" (md_extension m) = "Images" ∧
  heuristic_category "video" (md_extension m) = "Videos" ∧
  heuristic_category "audio" (md_extension m) = "Audio" ∧
  md_tags m = [] ∧ md_description m = None ∧ md_ai_analyzed m = false ∧
  md_category (analyze_file_name now "report.pdf" "document") = Some "Documents" ∧
  md_extension (analyze_file_name now "report.pdf" "document") = "pdf" ∧
  md_category (analyze_file_name now "REPORT.PDF" "document") = Some "Documents" ∧
  md_extension (analyze_file_name now "REPORT.PDF" "document") = "pdf" ∧
  md_category (analyze_file_name now "Clip.final.MKV" "document") = Some "Videos" ∧
  md_extension (analyze_file_name now "Clip.final.MKV" "document") = "mkv".
Proof.
  intros Hlower. cbn zeta.
  split; [|split; [apply analyze_file_name_category|]].
  - cbn [analyze_file_name md_extension]. unfold extension_of.
    destruct (Py.contains "." file_name) eqn:Hc; [|done].
    pose proof (split_last_segment file_name Hc) as Hseg.
    eexists. split; [exact Hseg|]. split; [done|].
    intros Hascii. by apply Hlower, (last_dot_segment_ascii file_name).
  - split_and!; try done;
      rewrite ?analyze_file_name_category; cbn [analyze_file_name md_extension];
      rewrite extension_of_ascii by done; reflexivity.
Qed.

(** ** Slices, removal and the score dictionary *)

Lemma slice_to_nat {A} (l : list A) (n : nat) :
  Py.slice_to l (Z.of_nat n) = take n l.
Proof.
  unfold Py.slice_to. rewrite (proj2 (Z.leb_le 0 _)) by lia.
  by rewrite Nat2Z.id.
Qed.

(** Outside the natural numbers the slice counts from the end. *)
Example slice_to_negative : Py.slice_to ["a"; "b"; "c"] (-1) = ["a"; "b"].
Proof. reflexivity. Qed.

Lemma slice_to_length {A} (l : list A) (n : nat) :
  (length (Py.slice_to l (Z.of_nat n)) ≤ n)%nat.
Proof. rewrite slice_to_nat, length_take. lia. Qed.

Lemma remove_subseteq x l : Py.remove x l ⊆ l.
Proof.
  clear lower.
  induction l as [|y l IH]; cbn; [done|].
  destruct (String.eqb y x); set_solver.
Qed.

Lemma remove_NoDup x l : NoDup l → NoDup (Py.remove x l) ∧ x ∉ Py.remove x l.
Proof.
  clear lower.
  induction 1 as [|y l Hy Hl IH]; cbn; [split; [constructor|set_solver]|].
  destruct (String.eqb_spec y x) as [->|Hne]; [done|].
  destruct IH as [IH1 IH2]. split.
  - constructor; [|done]. intros Hin. by apply Hy, (remove_subseteq x).
  - set_solver.
Qed.

Lemma dict_set_fresh {V} k (v : V) d :
  k ∉ d.*1 → Py.dict_set k v d = d ++ [(k, v)].
Proof.
  induction d as [|[k' v'] d IH]; cbn; [done|].
  intros Hk. apply not_elem_of_cons in Hk as [Hne Hk].
  destruct (String.eqb_spec k' k); [congruence|]. by rewrite IH.
Qed.

(** With distinct catalog keys every assignment of the loop appends, so the
    score dictionary lists the scored entries in catalog order. *)
Lemma score_loop_app {V} (f : string → V → option Z) catalog scores :
  NoDup (scores.*1 ++ catalog.*1) →
  score_loop f catalog scores =
  scores ++ omap (λ e, (λ s, (e.1, s)) <$> f e.1 e.2) catalog.
Proof.
  clear lower.
  revert scores. induction catalog as [|[k i] catalog IH]; intros scores Hnd.
  - cbn. by rewrite app_nil_r.
  - cbn [score_loop fold_left].
    change (fold_left _ catalog ?a) with (score_loop f catalog a).
    cbn in Hnd. apply NoDup_app in Hnd as (H1 & H2 & H3).
    apply NoDup_cons in H3 as [H3 H4].
    cbn [omap list_omap fst snd].
    destruct (f k i) as [s|]; cbn [fmap option_fmap option_map].
    + rewrite dict_set_fresh by set_solver.
      rewrite IH, <- app_assoc; [done|].
      rewrite fmap_app. cbn. rewrite <- app_assoc. cbn.
      apply NoDup_app. repeat split; [done|set_solver|by constructor].
    + apply IH. apply NoDup_app. set_solver.
Qed.

Lemma score_loop_spec {V} (f : string → V → option Z) catalog :
  NoDup catalog.*1 →
  score_loop f catalog [] =
  (λ e, (e.1, default 0 (f e.1 e.2))) <$> filter (λ e, is_Some (f e.1 e.2)) catalog.
Proof.
  intros Hnd. rewrite score_loop_app by done. cbn [app fmap].
  clear Hnd. induction catalog as [|[k i] catalog IH]; [done|].
  rewrite filter_cons. cbn [omap list_omap fst snd].
  destruct (f k i) as [s|] eqn:E; cbn [fmap option_fmap option_map].
  - rewrite decide_True by eauto. rewrite fmap_cons. cbn [fst snd].
    rewrite E. cbn [default]. f_equal. apply IH.
  - rewrite decide_False by (by intros [? ?]). apply IH.
Qed.

Lemma fold_left_ext_in {A B} (f g : A → B → A) l a :
  (∀ a b, b ∈ l → f a b = g a b) → fold_left f l a = fold_left g l a.
Proof.
  revert a. induction l as [|b l IH]; intros a H; cbn; [done|].
  rewrite H by set_solver. apply IH. intros. apply H. set_solver.
Qed.

(** ** The stable descending sort *)

Lemma insert_desc_perm {K} (x : K * Z) l : Py.insert_desc x l ≡ₚ x :: l.
Proof.
  induction l as [|y l IH]; cbn; [done|].
  destruct (x.2 <? y.2); [|done]. rewrite IH. apply Permutation_swap.
Qed.

Lemma sorted_desc_perm {K} (l : list (K * Z)) : Py.sorted_desc l ≡ₚ l.
Proof.
  induction l as [|x l IH]; cbn; [done|]. by rewrite insert_desc_perm, IH.
Qed.

Lemma insert_desc_sorted {K} (x : K * Z) l :
  StronglySorted (λ a b, b.2 ≤ a.2) l →
  StronglySorted (λ a b, b.2 ≤ a.2) (Py.insert_desc x l).
Proof.
  induction 1 as [|y l Hl IH Hy]; cbn; [repeat constructor|].
  destruct (Z.ltb_spec x.2 y.2).
  - constructor; [done|]. rewrite insert_desc_perm.
    constructor; [lia|done].
  - constructor; [by constructor|].
    constructor; [lia|]. eapply Forall_impl; [exact Hy|]. cbn. intros; lia.
Qed.

Lemma sorted_desc_sorted {K} (l : list (K * Z)) :
  StronglySorted (λ a b, b.2 ≤ a.2) (Py.sorted_desc l).
Proof.
  induction l as [|x l IH]; cbn; [constructor|]. by apply insert_desc_sorted.
Qed.

Lemma insert_desc_filter {K} (x : K * Z) l s :
  filter (λ e, e.2 = s) (Py.insert_desc x l) = filter (λ e, e.2 = s) (x :: l).
Proof.
  induction l as [|y l IH]; cbn; [done|].
  destruct (Z.ltb_spec x.2 y.2); [|done].
  rewrite (filter_cons _ y), IH, !filter_cons.
  repeat case_decide; try done; lia.
Qed.

Lemma sorted_desc_stable {K} (l : list (K * Z)) s :
  filter (λ e, e.2 = s) (Py.sorted_desc l) = filter (λ e, e.2 = s) l.
Proof.
  induction l as [|x l IH]; cbn; [done|].
  by rewrite insert_desc_filter, !filter_cons, IH.
Qed.

Lemma sorted_desc_ranked {K} (l : list (K * Z)) : ranked_desc l (Py.sorted_desc l).
Proof.
  split; [apply sorted_desc_perm|].
  split; [apply sorted_desc_sorted|apply sorted_desc_stable].
Qed.

(** The ranking is determined by its specification: two stable descending
    rankings of the same entries coincide. *)
Lemma ranked_desc_unique {K} (scored r1 r2 : list (K * Z)) :
  ranked_desc scored r1 → ranked_desc scored r2 → r1 = r2.
Proof.
  intros (P1 & S1 & F1) (P2 & S2 & F2).
  assert (∀ s, filter (λ e, e.2 = s) r1 = filter (λ e, e.2 = s) r2) as F
    by (intros; by rewrite F1, F2).
  assert (r1 ≡ₚ r2) as P by (by rewrite P1, P2).
  clear P1 P2 F1 F2 scored. revert r2 S2 F P.
  induction S1 as [|x r1 S1 IH Hx]; intros r2 S2 F P.
  - by apply Permutation_nil_l in P.
  - destruct r2 as [|y r2]; [by apply Permutation_nil_r in P|].
    apply StronglySorted_inv in S2 as [S2 Hy].
    assert (x.2 = y.2) as Hxy.
    { assert (x ∈ y :: r2) as Hin1 by (rewrite <- P; set_solver).
      assert (y ∈ x :: r1) as Hin2 by (rewrite P; set_solver).
      apply elem_of_cons in Hin1 as [->|Hin1]; [done|].
      apply elem_of_cons in Hin2 as [->|Hin2]; [done|].
      rewrite Forall_forall in Hx, Hy.
      specialize (Hx _ Hin2). specialize (Hy _ Hin1). cbn in *. lia. }
    specialize (F x.2) as Fx. rewrite !filter_cons in Fx.
    rewrite decide_True in Fx by done. rewrite decide_True in Fx by done.
    injection Fx as -> Fx. f_equal. apply IH; [done| |by apply (inj (cons y))].
    intros s. specialize (F s). rewrite !filter_cons in F.
    case_decide; [by injection F|done].
Qed.

(** ** Classifier with fallback *)

(** C9. Without a configured key, or when the call or the decoding of its
    reply fails, [analyze_file_with_ai] returns exactly the heuristic
    classification of the descriptor's name and type (it is a total
    function: nothing is raised).  On the successful path the tags are the
    first five of the reply, hence at most five, and the category is the
    reply's own, whatever string it is. *)
Theorem analyze_file_with_ai_fallback key classify now info content :
  let heuristic :=
    analyze_file_name now (default "" (fi_name info))
                      (default "document" (fi_type info)) in
  let request :=
    AiRequest (default "" (fi_name info)) (default "document" (fi_type info))
              (default 0 (fi_size info)) (content_description content) in
  let m := analyze_file_with_ai key classify now info content in
  (key = "" → m = heuristic) ∧
  (classify request = None → m = heuristic) ∧
  (∀ result, key ≠ "" → classify request = Some result →
     md_tags m = take 5 (default [] (rs_tags result)) ∧
     (length (md_tags m) ≤ 5)%nat ∧
     md_category m = Some (default "Other" (rs_category result)) ∧
     (∀ c, rs_category result = Some c → md_category m = Some c) ∧
     md_ai_analyzed m = true).
Proof.
  cbn zeta. unfold analyze_file_with_ai. split; [by intros ->|].
  split; [intros ->; by destruct (String.eqb key "")|].
  intros result Hkey Hreply. rewrite Hreply.
  destruct (String.eqb_spec key ""); [done|]. cbn.
  split_and!; try done.
  - apply (slice_to_length _ 5).
  - by intros c ->.
Qed.

(** ** Recommender *)

Lemma tag_loop_sum (fav_tags : gmap string Z) tags score :
  fold_left (fun score tag =>
               match fav_tags !! tag with
               | Some w => score + w
               | None => score
               end) tags score
  = score + foldr Z.add 0 (weight fav_tags <$> tags).
Proof.
  revert score. induction tags as [|t tags IH]; intros score; cbn; [lia|].
  rewrite IH. unfold weight. destruct (fav_tags !! t); cbn; lia.
Qed.

(** The score computed by the loop is the one the specification states,
    as long as the empty category name carries no weight. *)
Lemma recommendation_score_spec fm prefs file_id info :
  weight (favorite_categories prefs) "" = 0 →
  recommendation_score fm (favorite_categories prefs) (favorite_tags prefs)
                       file_id info
  = preference_score fm prefs file_id info.
Proof.
  intros Hempty. unfold recommendation_score, preference_score.
  destruct (fm !! meta_id_of file_id info) as [meta|]; [|done].
  rewrite tag_loop_sum. f_equal.
  destruct (md_category meta) as [c|]; [|done]. cbn.
  destruct (String.eqb_spec c "") as [->|_]; cbn; [by rewrite Hempty|].
  unfold weight. by destruct (favorite_categories prefs !! c).
Qed.

Lemma get_recommendations_scored fm up user_id prefs catalog count :
  up !! user_id = Some prefs →
  get_recommendations fm up user_id catalog count =
  (Py.slice_to
     (Py.sorted_desc
        (score_loop
           (λ file_id info,
              if bool_decide (file_id ∈ recently_accessed prefs) then None
              else Some (recommendation_score fm (favorite_categories prefs)
                           (favorite_tags prefs) file_id info))
           catalog [])) count).*1.
Proof.
  intros Hp. unfold get_recommendations, score_loop. rewrite Hp.
  do 3 f_equal. apply fold_left_ext_in. intros a [k i] _.
  by destruct (bool_decide _).
Qed.

(** C6. Cold start: for a user without a preference record the
    recommendation is the first [min count |catalog|] identifiers of the
    catalog, in catalog order. *)
Theorem get_recommendations_cold_start fm up user_id catalog (count : nat) :
  up !! user_id = None →
  get_recommendations fm up user_id catalog (Z.of_nat count) =
  take (min count (length catalog)) catalog.*1.
Proof.
  intros Hp. unfold get_recommendations. rewrite Hp.
  rewrite length_fmap, <- Nat2Z.inj_min. apply slice_to_nat.
Qed.

Lemma get_recommendations_cold_start_witness :
  (∅ : gmap string preferences) !! "7" = None ∧
  get_recommendations sample_metadata ∅ "7" sample_catalog (Z.of_nat 2) =
  take (min 2 (length sample_catalog)) sample_catalog.*1.
Proof.
  split; [reflexivity|].
  apply (get_recommendations_cold_start sample_metadata ∅ "7" sample_catalog 2).
  reflexivity.
Defined.

Example get_recommendations_cold_start_sample :
  get_recommendations sample_metadata ∅ "7" sample_catalog 2 = ["f0"; "f1"] ∧
  get_recommendations sample_metadata ∅ "7" sample_catalog 8 = ["f0"; "f1"; "f2"].
Proof. by vm_compute. Qed.

(** The ranking computed by [get_recommendations] for a user with a
    record. *)
Lemma get_recommendations_ranked fm up user_id prefs catalog (count : nat) :
  up !! user_id = Some prefs →
  NoDup catalog.*1 →
  weight (favorite_categories prefs) "" = 0 →
  let eligible := filter (λ e, e.1 ∉ recently_accessed prefs) catalog in
  let scored := (λ e, (e.1, preference_score fm prefs e.1 e.2)) <$> eligible in
  let result := get_recommendations fm up user_id catalog (Z.of_nat count) in
  (∀ f, f ∈ result → f ∉ recently_accessed prefs) ∧
  ∃ ranked, ranked_desc scored ranked ∧ result = take count ranked.*1.
Proof.
  intros Hp Hnd Hempty. cbn zeta.
  rewrite (get_recommendations_scored _ _ _ _ _ _ Hp).
  rewrite score_loop_spec, slice_to_nat, fmap_take by done.
  set (scored := (λ e, (e.1, preference_score fm prefs e.1 e.2)) <$> _).
  match goal with |- context [Py.sorted_desc ?l] =>
    assert (l = scored) as ->
  end.
  { unfold scored. erewrite list_filter_iff.
    - apply Forall_fmap_ext_1, Forall_forall. intros [k i] Hin. cbn.
      apply list_elem_of_filter in Hin as [Hk _]. cbn in Hk.
      rewrite bool_decide_eq_false_2 by done. cbn.
      by rewrite recommendation_score_spec.
    - intros [k i]. cbn. case_bool_decide; split; done. }
  split; [|exists (Py.sorted_desc scored); split; [apply sorted_desc_ranked|done]].
  intros f Hf. apply subseteq_take in Hf.
  apply list_elem_of_fmap in Hf as ([k s] & -> & Hin).
  rewrite sorted_desc_perm in Hin. unfold scored in Hin.
  apply list_elem_of_fmap in Hin as (e & [= -> ->] & Hin).
  by apply list_elem_of_filter in Hin as [? _].
Qed.

(** C2. For a user with a preference record: no recommended identifier is
    in [recently_accessed]; every other catalog entry is scored with the
    category weight plus the tag weights of its metadata record (0 without
    a record, and the entry stays eligible); the result is the first
    [count] identifiers of the stable descending ranking of these scores,
    ties in catalog order. *)
Theorem get_recommendations_ranking fm up user_id prefs catalog (count : nat) :
  up !! user_id = Some prefs →
  NoDup catalog.*1 →
  weight (favorite_categories prefs) "" = 0 →
  let eligible := filter (λ e, e.1 ∉ recently_accessed prefs) catalog in
  let scored := (λ e, (e.1, preference_score fm prefs e.1 e.2)) <$> eligible in
  let result := get_recommendations fm up user_id catalog (Z.of_nat count) in
  (∀ f, f ∈ result → f ∉ recently_accessed prefs) ∧
  ∃ ranked, ranked_desc scored ranked ∧ result = take count ranked.*1.
Proof. apply get_recommendations_ranked. Qed.

Lemma get_recommendations_ranking_witness :
  let up : gmap string preferences := {["7" := sample_preferences]} in
  up !! "7" = Some sample_preferences ∧
  NoDup sample_catalog.*1 ∧
  weight (favorite_categories sample_preferences) "" = 0 ∧
  let eligible := filter (λ e, e.1 ∉ recently_accessed sample_preferences)
                         sample_catalog in
  let scored :=
    (λ e, (e.1, preference_score sample_metadata sample_preferences e.1 e.2))
      <$> eligible in
  let result :=
    get_recommendations sample_metadata up "7" sample_catalog (Z.of_nat 1) in
  (∀ f, f ∈ result → f ∉ recently_accessed sample_preferences) ∧
  ∃ ranked, ranked_desc scored ranked ∧ result = take 1 ranked.*1.
Proof.
  assert (NoDup sample_catalog.*1) as Hnd
    by (apply (bool_decide_unpack _); vm_compute; exact I).
  split; [reflexivity|]. split; [exact Hnd|]. split; [reflexivity|].
  apply (get_recommendations_ranking sample_metadata
           {["7" := sample_preferences]} "7" sample_preferences
           sample_catalog 1);
    [reflexivity|exact Hnd|reflexivity].
Defined.

(** The specification's scenario: with Code weighing 4, the Code file is
    recommended before the file that scores 0; the recently accessed file
    is left out. *)
Example get_recommendations_sample :
  get_recommendations sample_metadata {["7" := sample_preferences]} "7"
                      sample_catalog 5 = ["f1"; "f0"].
Proof. by vm_compute. Qed.


(** ** Similarity finder *)

Lemma similarity_score_spec ref meta :
  similarity_score (md_category ref) (list_to_set (md_tags ref)) meta
  = tag_overlap_score ref meta.
Proof.
  unfold similarity_score, tag_overlap_score.
  case_bool_decide; case_decide; try done; lia.
Qed.

Lemma get_similar_files_scored fm file_id catalog count ref :
  fm !! reference_meta_id file_id catalog = Some ref →
  get_similar_files fm file_id catalog count =
  (Py.slice_to
     (Py.sorted_desc
        (score_loop
           (λ f_id info,
              if String.eqb f_id file_id then None
              else tag_overlap_score ref <$> fm !! meta_id_of f_id info)
           catalog [])) count).*1.
Proof.
  intros Href. unfold get_similar_files, score_loop. rewrite Href.
  do 3 f_equal. apply fold_left_ext_in. intros a [k i] _.
  destruct (String.eqb k file_id); [done|].
  destruct (fm !! meta_id_of k i); [|done]. cbn.
  by rewrite similarity_score_spec.
Qed.

(** C3. Without a metadata record for the reference file the result is
    empty.  Otherwise the reference itself is never returned, entries
    without a metadata record are skipped, every other entry is scored 5
    for the reference's category plus 2 per common tag, and the result is
    the first [count] identifiers (so at most [count]) of the stable
    descending ranking of these scores, ties in catalog order. *)
Theorem get_similar_files_ranking fm file_id catalog (count : nat) :
  NoDup catalog.*1 →
  let result := get_similar_files fm file_id catalog (Z.of_nat count) in
  match fm !! reference_meta_id file_id catalog with
  | None => result = []
  | Some ref =>
      let eligible :=
        filter (λ e, e.1 ≠ file_id ∧ is_Some (fm !! meta_id_of e.1 e.2)) catalog in
      let scored :=
        (λ e, (e.1, default 0 (tag_overlap_score ref <$> fm !! meta_id_of e.1 e.2)))
          <$> eligible in
      (file_id ∉ result) ∧ (length result ≤ count)%nat ∧
      ∃ ranked, ranked_desc scored ranked ∧ result = take count ranked.*1
  end.
Proof.
  clear lower.
  intros Hnd. cbn zeta.
  destruct (fm !! reference_meta_id file_id catalog) as [ref|] eqn:Href;
    [|unfold get_similar_files; by rewrite Href].
  rewrite (get_similar_files_scored _ _ _ _ _ Href).
  rewrite score_loop_spec, slice_to_nat, fmap_take by done.
  set (scored := (λ e, (e.1, default 0 (_ <$> fm !! meta_id_of e.1 e.2))) <$> _).
  match goal with |- context [Py.sorted_desc ?l] =>
    assert (l = scored) as ->
  end.
  { unfold scored. erewrite list_filter_iff.
    - apply Forall_fmap_ext_1, Forall_forall. intros [k i] Hin. cbn.
      apply list_elem_of_filter in Hin as [[Hk _] _]. cbn in Hk.
      by destruct (String.eqb_spec k file_id).
    - intros [k i]. cbn. destruct (String.eqb_spec k file_id) as [->|Hne].
      + split; [by intros [? ?]|by intros [? _]].
      + rewrite fmap_is_Some. naive_solver. }
  split_and!.
  - intros Hf. apply subseteq_take in Hf.
    apply list_elem_of_fmap in Hf as ([k s] & -> & Hin).
    rewrite sorted_desc_perm in Hin. unfold scored in Hin.
    apply list_elem_of_fmap in Hin as (e & [= -> ->] & Hin).
    by apply list_elem_of_filter in Hin as [[? _] _].
  - rewrite length_take. lia.
  - exists (Py.sorted_desc scored). split; [apply sorted_desc_ranked|done].
Qed.

Lemma get_similar_files_ranking_witness :
  let fm : gmap string metadata :=
    <["f2" := Metadata (Some "Code") "py" ["python"; "lib"] None false None 0 "t1"]>
      sample_metadata in
  NoDup sample_catalog.*1 ∧
  let result := get_similar_files fm "f1" sample_catalog (Z.of_nat 3) in
  match fm !! reference_meta_id "f1" sample_catalog with
  | None => result = []
  | Some ref =>
      let eligible :=
        filter (λ e, e.1 ≠ "f1" ∧ is_Some (fm !! meta_id_of e.1 e.2))
               sample_catalog in
      let scored :=
        (λ e, (e.1, default 0 (tag_overlap_score ref <$> fm !! meta_id_of e.1 e.2)))
          <$> eligible in
      ("f1" ∉ result) ∧ (length result ≤ 3)%nat ∧
      ∃ ranked, ranked_desc scored ranked ∧ result = take 3 ranked.*1
  end.
Proof.
  assert (NoDup sample_catalog.*1) as Hnd
    by (apply (bool_decide_unpack _); vm_compute; exact I).
  split; [exact Hnd|].
  apply (get_similar_files_ranking
           (<["f2" := Metadata (Some "Code") "py" ["python"; "lib"] None false
                        None 0 "t1"]> sample_metadata)
           "f1" sample_catalog 3 Hnd).
Defined.

Example get_similar_files_sample :
  get_similar_files
    (<["f2" := Metadata (Some "Code") "py" ["python"; "lib"] None false None 0 "t1"]>
       sample_metadata) "f1" sample_catalog 3 = ["f2"] ∧
  get_similar_files sample_metadata "f0" sample_catalog 3 = [].
Proof. by vm_compute. Qed.

(** The specification's scenario: two Images files tagged
    vacation/beach and vacation/friends have similarity 5 + 2 * 1 = 7. *)
Example tag_overlap_score_scenario :
  tag_overlap_score
    (Metadata (Some "Images") "jpg" ["vacation"; "beach"] None false None 0 "t0")
    (Metadata (Some "Images") "jpg" ["vacation"; "friends"] None false None 0 "t1")
  = 7.
Proof. by vm_compute. Qed.

(** ** Categorizer *)

Lemma dict_append_keys category file_id categories :
  (dict_append category file_id categories).*1 = categories.*1.
Proof.
  induction categories as [|[c files] rest IH]; cbn; [done|].
  destruct (String.eqb c category); cbn; [done|]. by rewrite IH.
Qed.

Lemma dict_append_concat category file_id categories :
  category ∈ categories.*1 →
  concat (dict_append category file_id categories).*2
  ≡ₚ file_id :: concat categories.*2.
Proof.
  clear lower.
  induction categories as [|[c files] rest IH]; cbn; [by intros ?%elem_of_nil|].
  intros Hin. destruct (String.eqb_spec c category) as [->|Hne]; cbn.
  - rewrite <- app_assoc. cbn. by rewrite <- Permutation_middle.
  - rewrite IH by set_solver. by rewrite <- Permutation_middle.
Qed.

Lemma dict_append_placed category file_id categories :
  category ∈ categories.*1 →
  placed (dict_append category file_id categories) category file_id.
Proof.
  clear lower.
  induction categories as [|[c files] rest IH]; cbn; [by intros ?%elem_of_nil|].
  intros Hin. destruct (String.eqb_spec c category) as [->|Hne].
  - exists (files ++ [file_id]). set_solver.
  - destruct IH as (fs & ? & ?); [set_solver|]. exists fs. set_solver.
Qed.

Lemma dict_append_keeps category file_id categories c x :
  placed categories c x →
  placed (dict_append category file_id categories) c x.
Proof.
  clear lower.
  intros (fs & Hin & Hx).
  induction categories as [|[c' files] rest IH]; cbn; [by apply elem_of_nil in Hin|].
  apply elem_of_cons in Hin as [[= <- <-]|Hin].
  - destruct (String.eqb c category).
    + exists (fs ++ [file_id]). set_solver.
    + exists fs. set_solver.
  - destruct (IH Hin) as (fs' & ? & ?).
    destruct (String.eqb c' category); [exists fs; set_solver|].
    exists fs'. set_solver.
Qed.

Lemma organize_files_by_category_loop fm catalog :
  organize_files_by_category fm catalog =
  List.filter (fun '(cat, files) => negb (bool_decide (files = [])))
    (organize_loop fm catalog (map (fun category => (category, [])) DEFAULT_CATEGORIES)).
Proof. reflexivity. Qed.

Lemma organize_loop_keys fm catalog categories :
  (organize_loop fm catalog categories).*1 = categories.*1.
Proof.
  revert categories. induction catalog as [|[k i] catalog IH]; intros cats; [done|].
  cbn. change (fold_left _ catalog ?a) with (organize_loop fm catalog a).
  rewrite IH. case_bool_decide; apply dict_append_keys.
Qed.

Lemma organize_loop_concat fm catalog categories :
  "Other" ∈ categories.*1 →
  concat (organize_loop fm catalog categories).*2
  ≡ₚ concat categories.*2 ++ catalog.*1.
Proof.
  revert categories. induction catalog as [|[k i] catalog IH]; intros cats Hother.
  - cbn. by rewrite app_nil_r.
  - cbn. change (fold_left _ catalog ?a) with (organize_loop fm catalog a).
    rewrite <- Permutation_middle. case_bool_decide.
    + rewrite IH by (by rewrite dict_append_keys).
      by rewrite dict_append_concat.
    + rewrite IH by (by rewrite dict_append_keys).
      by rewrite dict_append_concat.
Qed.

Lemma organize_loop_keeps fm catalog categories c x :
  placed categories c x → placed (organize_loop fm catalog categories) c x.
Proof.
  revert categories. induction catalog as [|[k i] catalog IH]; intros cats Hp; [done|].
  cbn. change (fold_left _ catalog ?a) with (organize_loop fm catalog a).
  apply IH. case_bool_decide; by apply dict_append_keeps.
Qed.

(** Every entry ends up under its own category when that is one of the
    keys, and under "Other" when it is not. *)
Lemma organize_loop_placed fm catalog categories file_id info :
  "Other" ∈ categories.*1 →
  (file_id, info) ∈ catalog →
  placed (organize_loop fm catalog categories)
         (if bool_decide (filed_category fm file_id info ∈ categories.*1)
          then filed_category fm file_id info else "Other")
         file_id.
Proof.
  revert categories. induction catalog as [|[k i] catalog IH]; intros cats Hother Hin;
    [by apply elem_of_nil in Hin|].
  cbn. change (fold_left _ catalog ?a) with (organize_loop fm catalog a).
  apply elem_of_cons in Hin as [[= <- <-]|Hin].
  - apply organize_loop_keeps. case_bool_decide; by apply dict_append_placed.
  - set (cats' := if bool_decide _ then _ else _).
    assert (cats'.*1 = cats.*1) as Hk
      by (unfold cats'; case_bool_decide; apply dict_append_keys).
    rewrite <- Hk. apply IH; [by rewrite Hk|done].
Qed.

Lemma drop_empty_concat (categories : list (string * list string)) :
  concat (List.filter (fun '(cat, files) => negb (bool_decide (files = [])))
                      categories).*2
  = concat categories.*2.
Proof.
  induction categories as [|[c files] rest IH]; cbn; [done|].
  case_bool_decide as Hf; cbn; [by rewrite Hf|by rewrite IH].
Qed.

Lemma drop_empty_elem (categories : list (string * list string)) c files :
  (c, files) ∈ List.filter (fun '(cat, files) => negb (bool_decide (files = [])))
                           categories
  ↔ (c, files) ∈ categories ∧ files ≠ [].
Proof.
  clear lower.
  rewrite !list_elem_of_In, filter_In. cbn.
  case_bool_decide; naive_solver.
Qed.

Lemma drop_empty_sublist (categories : list (string * list string)) :
  (List.filter (fun '(cat, files) => negb (bool_decide (files = [])))
               categories).*1 `sublist_of` categories.*1.
Proof.
  induction categories as [|[c files] rest IH]; cbn; [done|].
  destruct (negb _); cbn; [by constructor|by apply sublist_cons].
Qed.

Lemma DEFAULT_CATEGORIES_NoDup : NoDup DEFAULT_CATEGORIES.
Proof. apply (bool_decide_unpack _). by vm_compute. Qed.

Lemma initial_categories_keys :
  (map (fun category : string => (category, @nil string)) DEFAULT_CATEGORIES).*1
  = DEFAULT_CATEGORIES.
Proof. reflexivity. Qed.

(** C7. [organize_files_by_category] returns no category with an empty
    list; its lists together hold exactly the catalog's identifiers, each
    as often as it is a catalog key; and since the categories are distinct
    and the catalog keys are distinct, every entry is in exactly one
    list, exactly once. *)
Theorem organize_files_by_category_partition fm catalog :
  let organized := organize_files_by_category fm catalog in
  Forall (λ entry, entry.2 ≠ []) organized ∧
  concat organized.*2 ≡ₚ catalog.*1 ∧
  NoDup organized.*1 ∧
  (NoDup catalog.*1 → NoDup (concat organized.*2)).
Proof.
  cbn zeta. rewrite organize_files_by_category_loop.
  assert (concat (List.filter (fun '(cat, files) => negb (bool_decide (files = [])))
            (organize_loop fm catalog
               (map (fun category => (category, [])) DEFAULT_CATEGORIES))).*2
          ≡ₚ catalog.*1) as Hperm.
  { rewrite drop_empty_concat, organize_loop_concat; [done|].
    apply (bool_decide_unpack _). by vm_compute. }
  split_and!.
  - apply Forall_forall. intros [c files] Hin.
    by apply drop_empty_elem in Hin as [_ ?].
  - done.
  - eapply sublist_NoDup; [|apply drop_empty_sublist].
    rewrite organize_loop_keys. apply DEFAULT_CATEGORIES_NoDup.
  - intros Hnd. by rewrite Hperm.
Qed.

(** C10. Every key of the mapping returned by
    [organize_files_by_category] is one of the ten fixed categories, and a
    catalog entry whose metadata record carries a category outside that
    set is listed under "Other". *)
Theorem organize_files_by_category_closed fm catalog :
  let organized := organize_files_by_category fm catalog in
  (∀ category, category ∈ organized.*1 → category ∈ DEFAULT_CATEGORIES) ∧
  (∀ file_id info meta c,
     (file_id, info) ∈ catalog →
     fm !! meta_id_of file_id info = Some meta →
     md_category meta = Some c →
     c ∉ DEFAULT_CATEGORIES →
     placed organized "Other" file_id ∧ c ∉ organized.*1).
Proof.
  clear lower.
  cbn zeta. rewrite organize_files_by_category_loop.
  assert (∀ category,
    category ∈ (List.filter (fun '(cat, files) => negb (bool_decide (files = [])))
      (organize_loop fm catalog
         (map (fun category => (category, [])) DEFAULT_CATEGORIES))).*1 →
    category ∈ DEFAULT_CATEGORIES) as Hkeys.
  { intros c Hc. eapply sublist_subseteq in Hc; [|apply drop_empty_sublist].
    by rewrite organize_loop_keys in Hc. }
  split; [done|].
  intros file_id info meta c Hin Hmeta Hcat Hout. split; [|naive_solver].
  pose proof (organize_loop_placed fm catalog
    (map (fun category => (category, [])) DEFAULT_CATEGORIES) file_id info) as Hp.
  rewrite initial_categories_keys in Hp.
  unfold filed_category in Hp. rewrite Hmeta, Hcat in Hp. cbn [default] in Hp.
  rewrite bool_decide_eq_false_2 in Hp by done.
  destruct Hp as (files & Hfiles & Hfile); [|done|].
  { apply (bool_decide_unpack _). by vm_compute. }
  exists files. split; [|done]. apply drop_empty_elem. split; [done|].
  by intros ->; apply elem_of_nil in Hfile.
Qed.

(** ** Preference tracker *)

Lemma update_user_preferences_record fm up user_id file_id category tags ep :
  update_user_preferences fm up user_id file_id category tags ep =
  <[user_id := updated_record fm (prefs_of up user_id) file_id category tags ep]> up.
Proof.
  unfold update_user_preferences, updated_record, prefs_of.
  destruct (up !! user_id) as [p|] eqn:E; cbn zeta.
  - rewrite E. cbn [default].
    by destruct (match file_id with Some _ => _ | None => _ end).
  - rewrite lookup_insert_eq. cbn [default].
    destruct (match file_id with Some _ => _ | None => _ end).
    by rewrite insert_insert_eq.
Qed.

Lemma prefs_of_update fm up user_id file_id category tags ep u :
  prefs_of (update_user_preferences fm up user_id file_id category tags ep) u =
  if decide (user_id = u)
  then updated_record fm (prefs_of up user_id) file_id category tags ep
  else prefs_of up u.
Proof.
  rewrite update_user_preferences_record. unfold prefs_of.
  rewrite lookup_insert. by case_decide; subst.
Qed.

Lemma weight_bump n k d k' :
  weight (bump n k d) k' = if decide (k = k') then weight d k + n else weight d k'.
Proof.
  unfold bump, weight at 1. rewrite lookup_insert. by case_decide; subst.
Qed.

Lemma fold_bump_tag_fields n tags p :
  favorite_categories (fold_left (bump_tag n) tags p) = favorite_categories p ∧
  recently_accessed (fold_left (bump_tag n) tags p) = recently_accessed p ∧
  explicit_preferences (fold_left (bump_tag n) tags p) = explicit_preferences p.
Proof.
  revert p. induction tags as [|t tags IH]; intros p; [done|].
  cbn. destruct (IH (bump_tag n p t)) as (-> & -> & ->). done.
Qed.

Lemma fold_bump_tag_weight n tags p t :
  weight (favorite_tags (fold_left (bump_tag n) tags p)) t
  = weight (favorite_tags p) t + n * occurrences t tags.
Proof.
  unfold occurrences. revert p. induction tags as [|x tags IH]; intros p.
  - cbn. lia.
  - cbn [fold_left]. rewrite IH, filter_cons. cbn [bump_tag favorite_tags].
    rewrite weight_bump. repeat case_decide; subst; cbn [length]; try done; lia.
Qed.

Lemma weights_le_refl p : weights_le p p.
Proof. split; intros; lia. Qed.

Lemma weights_le_trans p q r : weights_le p q → weights_le q r → weights_le p r.
Proof. intros [H1 H2] [H3 H4]. split; intros k; [specialize (H1 k); specialize (H3 k)|specialize (H2 k); specialize (H4 k)]; lia. Qed.

Lemma bump_category_le n c p : 0 ≤ n → weights_le p (bump_category n c p).
Proof.
  intros Hn. split; intros k; cbn; [|lia].
  rewrite weight_bump. case_decide; subst; lia.
Qed.

Lemma fold_bump_tag_le n tags p :
  0 ≤ n → weights_le p (fold_left (bump_tag n) tags p).
Proof.
  intros Hn. split; intros k.
  - destruct (fold_bump_tag_fields n tags p) as (-> & _). lia.
  - rewrite fold_bump_tag_weight. unfold occurrences. nia.
Qed.

Lemma set_recently_accessed_le r p : weights_le p (set_recently_accessed r p).
Proof. split; intros; cbn; lia. Qed.

Lemma merge_explicit_le e p : weights_le p (merge_explicit e p).
Proof. split; intros; cbn; lia. Qed.

Lemma access_block_le meta file_id p : weights_le p (access_block meta file_id p).1.
Proof.
  unfold access_block. cbn [fst].
  eapply weights_le_trans; [|apply fold_bump_tag_le; lia].
  eapply weights_le_trans; [apply set_recently_accessed_le|].
  destruct (md_category meta) as [c|]; [|apply weights_le_refl].
  destruct (Py.truthy (Some c)); [|apply weights_le_refl].
  apply bump_category_le; lia.
Qed.

Lemma truthy_Some c : Py.truthy (Some c) = true ↔ c ≠ "".
Proof. clear lower. cbn. destruct (String.eqb_spec c ""); naive_solver. Qed.

(** Any preorder that relates a record to the result of each elementary
    update relates it to the result of [update_user_preferences]. *)
Lemma updated_record_steps (R : relation preferences) :
  Reflexive R → Transitive R →
  (∀ meta fid p, fid ≠ "" → R p (access_block meta fid p).1) →
  (∀ c p, c ≠ "" → R p (bump_category 3 c p)) →
  (∀ ts p, R p (fold_left (bump_tag 3) ts p)) →
  (∀ e p, R p (merge_explicit e p)) →
  ∀ fm p file_id category tags ep,
    R p (updated_record fm p file_id category tags ep).
Proof.
  intros Hrefl Htrans Haccess Hcat Htags Hexp fm p file_id category tags ep.
  unfold updated_record.
  set (first := match file_id with Some _ => _ | None => _ end).
  assert (R p first.1) as H1.
  { unfold first. destruct file_id as [fid|]; [|done].
    destruct (Py.truthy (Some fid)) eqn:Hf; [|done].
    apply truthy_Some in Hf. destruct (fm !! fid); [by apply Haccess|done]. }
  destruct first as [p1 category1]. cbn [fst] in H1.
  etrans; [exact H1|]. clear H1.
  set (p2 := match category1 with Some _ => _ | None => _ end).
  assert (R p1 p2) as H2.
  { unfold p2. destruct category1 as [c|]; [|done].
    destruct (Py.truthy (Some c)) eqn:Hc; [|done].
    by apply Hcat, truthy_Some. }
  etrans; [exact H2|]. clearbody p2. clear H2.
  set (p3 := match tags with Some _ => _ | None => _ end).
  assert (R p2 p3) as H3 by (unfold p3; by destruct tags).
  etrans; [exact H3|]. clearbody p3.
  by destruct ep.
Qed.

Lemma updated_record_le fm p file_id category tags ep :
  weights_le p (updated_record fm p file_id category tags ep).
Proof.
  apply (updated_record_steps weights_le).
  - intros ?. apply weights_le_refl.
  - intros ???. apply weights_le_trans.
  - intros. apply access_block_le.
  - intros. apply bump_category_le. lia.
  - intros. apply fold_bump_tag_le. lia.
  - intros. apply merge_explicit_le.
Qed.

Lemma recent_push_ok file_id recent :
  NoDup recent →
  let pushed :=
    Py.slice_to (file_id :: (if bool_decide (file_id ∈ recent)
                             then Py.remove file_id recent else recent)) 10 in
  (length pushed ≤ 10)%nat ∧ NoDup pushed.
Proof.
  intros Hnd. cbn zeta. rewrite (slice_to_nat _ 10). split.
  - rewrite length_take. lia.
  - eapply sublist_NoDup; [|apply sublist_take].
    case_bool_decide as Hin.
    + destruct (remove_NoDup file_id recent Hnd). by constructor.
    + by constructor.
Qed.

Lemma access_block_ok meta file_id p :
  file_id ≠ "" → record_ok p → record_ok (access_block meta file_id p).1.
Proof.
  intros Hf [[_ Hnd] Hempty]. unfold access_block, record_ok, recent_ok. cbn [fst].
  match goal with |- context [fold_left (bump_tag 1) ?ts ?q] =>
    destruct (fold_bump_tag_fields 1 ts q) as (-> & -> & _)
  end.
  pose proof (recent_push_ok file_id (recently_accessed p) Hnd) as Hpush.
  destruct (md_category meta) as [c|]; [|done].
  destruct (Py.truthy (Some c)) eqn:Hc; [|done].
  apply truthy_Some in Hc. cbn. split; [done|].
  rewrite weight_bump. by rewrite decide_False.
Qed.

Lemma updated_record_ok fm p file_id category tags ep :
  record_ok p → record_ok (updated_record fm p file_id category tags ep).
Proof.
  apply (updated_record_steps (λ p p', record_ok p → record_ok p')).
  - by intros ?.
  - intros ??? H1 H2 ?. by apply H2, H1.
  - intros. by apply access_block_ok.
  - intros c q Hc [? ?]. split; [done|]. cbn. rewrite weight_bump.
    by rewrite decide_False.
  - intros ts q [? ?]. unfold record_ok, recent_ok.
    by destruct (fold_bump_tag_fields 3 ts q) as (-> & -> & _).
  - by intros e q [? ?].
Qed.

Lemma empty_preferences_ok : record_ok empty_preferences.
Proof. repeat split; cbn; [lia|constructor]. Qed.

(** Every store the tracker builds holds only well-formed records. *)
Lemma tracker_reachable_ok up :
  tracker_reachable up → ∀ u p, up !! u = Some p → record_ok p.
Proof.
  induction 1 as [|fm up user_id file_id category tags ep _ IH]; intros u p Hp.
  - by rewrite lookup_empty in Hp.
  - rewrite update_user_preferences_record, lookup_insert in Hp.
    case_decide; [|by eapply IH]. injection Hp as <-.
    apply updated_record_ok. unfold prefs_of.
    destruct (up !! user_id) eqn:E; [by eapply IH|apply empty_preferences_ok].
Qed.

Lemma access_count_of_track now fm file_id f :
  access_count_of (track_file_access now fm file_id) f =
  if decide (file_id = f ∧ is_Some (fm !! file_id))
  then access_count_of fm f + 1 else access_count_of fm f.
Proof.
  unfold track_file_access, access_count_of.
  destruct (fm !! file_id) as [meta|] eqn:E.
  - rewrite lookup_insert. case_decide as Hf.
    + subst f. rewrite decide_True by eauto. by rewrite E.
    + rewrite decide_False by naive_solver. done.
  - rewrite decide_False; [done|]. by intros [_ [? ?]].
Qed.

Lemma track_file_access_is_Some now fm file_id f :
  is_Some (track_file_access now fm file_id !! f) ↔ is_Some (fm !! f).
Proof.
  unfold track_file_access. destruct (fm !! file_id) as [meta|] eqn:E; [|done].
  rewrite lookup_insert. case_decide; subst; rewrite ?E; split; eauto.
Qed.

Lemma access_count_of_accesses times fm file_id :
  is_Some (fm !! file_id) →
  access_count_of (track_file_accesses times fm file_id) file_id =
  access_count_of fm file_id + Z.of_nat (length times).
Proof.
  unfold track_file_accesses. revert fm.
  induction times as [|now times IH]; intros fm Hfm; cbn [fold_left length].
  - lia.
  - rewrite IH by (by apply track_file_access_is_Some).
    rewrite access_count_of_track, decide_True by done. lia.
Qed.

(** C8. The two mutating operations keep the invariants of the data
    model: [track_file_access] never lowers any access count, and [N]
    accesses to a file that has a record raise its count by exactly [N];
    [update_user_preferences], whatever its arguments, never lowers a
    category or tag weight of any user; and it keeps every
    [recently_accessed] list within 10 entries and free of duplicates.
    Hence every store built by the tracker from the empty one satisfies
    the bound. *)
Theorem tracker_invariants :
  (∀ now fm file_id f,
     access_count_of fm f ≤ access_count_of (track_file_access now fm file_id) f) ∧
  (∀ times fm file_id,
     is_Some (fm !! file_id) →
     access_count_of (track_file_accesses times fm file_id) file_id =
     access_count_of fm file_id + Z.of_nat (length times)) ∧
  (∀ fm up user_id file_id category tags ep u k,
     let up' := update_user_preferences fm up user_id file_id category tags ep in
     category_weight up u k ≤ category_weight up' u k ∧
     tag_weight up u k ≤ tag_weight up' u k) ∧
  (∀ fm up user_id file_id category tags ep,
     (∀ u p, up !! u = Some p → recent_ok p) →
     ∀ u p, update_user_preferences fm up user_id file_id category tags ep !! u
            = Some p → recent_ok p) ∧
  (∀ up, tracker_reachable up → ∀ u p, up !! u = Some p → recent_ok p).
Proof.
  split_and!.
  - intros. rewrite access_count_of_track. case_decide; lia.
  - apply access_count_of_accesses.
  - intros fm up user_id file_id category tags ep u k. cbn zeta.
    unfold category_weight, tag_weight. rewrite prefs_of_update.
    case_decide; subst; [|lia].
    destruct (updated_record_le fm (prefs_of up u) file_id category tags ep)
      as [Hc Ht].
    split; [apply Hc|apply Ht].
  - intros fm up user_id file_id category tags ep Hinv u p Hp.
    rewrite update_user_preferences_record, lookup_insert in Hp.
    case_decide; [|by eapply Hinv]. injection Hp as <-.
    apply (updated_record_steps (λ p p', recent_ok p → recent_ok p')).
    + by intros ?.
    + intros ??? H1 H2 ?. by apply H2, H1.
    + intros meta fid q _ [_ Hnd]. unfold access_block, recent_ok. cbn [fst].
      match goal with |- context [fold_left (bump_tag 1) ?ts ?q] =>
        destruct (fold_bump_tag_fields 1 ts q) as (_ & -> & _)
      end.
      pose proof (recent_push_ok fid (recently_accessed q) Hnd).
      destruct (md_category meta); [destruct (Py.truthy _)|]; done.
    + done.
    + intros ts q ?. unfold recent_ok.
      by destruct (fold_bump_tag_fields 3 ts q) as (_ & -> & _).
    + done.
    + unfold prefs_of. destruct (up !! user_id) eqn:E; [by eapply Hinv|].
      apply empty_preferences_ok.
  - intros up Hup u p Hp. by apply (tracker_reachable_ok up Hup u p).
Qed.

(** The record built by [record_access] for a file that has a metadata
    record: the identifier moves to the front of [recently_accessed], each
    tag gains 1 per occurrence, and the file's category gains 4, the
    access increment and the interest increment together. *)
Lemma record_access_effect fm up user_id file_id meta :
  file_id ≠ "" → fm !! file_id = Some meta →
  let p := prefs_of up user_id in
  let p' := prefs_of (record_access fm up user_id file_id) user_id in
  recently_accessed p' =
    take 10 (file_id :: (if bool_decide (file_id ∈ recently_accessed p)
                         then Py.remove file_id (recently_accessed p)
                         else recently_accessed p)) ∧
  (∀ t, weight (favorite_tags p') t
        = weight (favorite_tags p) t + occurrences t (md_tags meta)) ∧
  (∀ k, weight (favorite_categories p') k
        = weight (favorite_categories p) k
          + (if decide (md_category meta = Some k ∧ k ≠ "") then 4 else 0)).
Proof.
  clear lower.
  intros Hf Hmeta. cbn zeta. unfold record_access.
  rewrite prefs_of_update, decide_True by done.
  unfold updated_record. rewrite (proj2 (truthy_Some file_id) Hf), Hmeta.
  unfold access_block.
  match goal with |- context [fold_left (bump_tag 1) ?ts ?q] =>
    pose proof (fold_bump_tag_fields 1 ts q) as (Hc & Hr & _);
    pose proof (fold_bump_tag_weight 1 ts q) as Ht;
    set (folded := fold_left (bump_tag 1) ts q) in *
  end.
  rewrite (slice_to_nat _ 10) in *.
  destruct (md_category meta) as [c|] eqn:Hcat.
  - destruct (Py.truthy (Some c)) eqn:Htruthy.
    + apply truthy_Some in Htruthy. cbn. rewrite Hr, Hc. cbn.
      split_and!; [done|intros t; rewrite Ht; cbn; lia|].
      intros k. rewrite !weight_bump.
      repeat case_decide; subst; try lia; naive_solver.
    + cbn. rewrite Hr, Hc. cbn.
      split_and!; [done|intros t; rewrite Ht; cbn; lia|].
      intros k. rewrite decide_False; [lia|].
      intros [[= <-] Hk]. apply truthy_Some in Hk. congruence.
  - cbn. rewrite Hr, Hc. cbn.
    split_and!; [done|intros t; rewrite Ht; cbn; lia|].
    intros k. rewrite decide_False; [lia|]. by intros [? _].
Qed.

(** C1. One access to a Code file by a user without a record: the file
    is at the front of [recently_accessed] and its tag weighs 1, but the
    weight of its category is 4, not 1. *)
Theorem record_access_category_weight :
  let fm : gmap string metadata :=
    {["f1" := Metadata (Some "Code") "py" ["python"] None false None 0 "t0"]} in
  let up := record_access fm ∅ "7" "f1" in
  recent_of up "7" = ["f1"] ∧
  tag_weight up "7" "python" = 1 ∧
  category_weight up "7" "Code" = 4.
Proof. by vm_compute. Qed.

(** C5 as stated fails for a user without a record: the call creates one. *)
Lemma record_access_creates_record :
  record_access ∅ ∅ "7" "f1" !! "7" = Some empty_preferences ∧
  (∅ : gmap string preferences) !! "7" = None.
Proof. by vm_compute. Qed.

(** C5. When the file has no metadata record, [record_access] adds no
    entry to any [recently_accessed] list and changes no category or tag
    weight; it leaves the store unchanged when the user has a record, and
    otherwise only adds an empty record for the user. *)
Theorem record_access_without_metadata fm up user_id file_id :
  fm !! file_id = None →
  let up' := record_access fm up user_id file_id in
  up' = match up !! user_id with
        | Some _ => up
        | None => <[user_id := empty_preferences]> up
        end ∧
  (∀ u, recent_of up' u = recent_of up u) ∧
  (∀ u k, category_weight up' u k = category_weight up u k) ∧
  (∀ u k, tag_weight up' u k = tag_weight up u k).
Proof.
  intros Hmeta. cbn zeta.
  assert (updated_record fm (prefs_of up user_id) (Some file_id) None None None
          = prefs_of up user_id) as Hrec.
  { unfold updated_record. rewrite Hmeta. by destruct (Py.truthy _). }
  assert (∀ u, prefs_of (record_access fm up user_id file_id) u = prefs_of up u)
    as Hprefs.
  { intros u. unfold record_access. rewrite prefs_of_update, Hrec.
    by case_decide; subst. }
  split_and!.
  - unfold record_access. rewrite update_user_preferences_record, Hrec.
    unfold prefs_of. destruct (up !! user_id) eqn:E; [|done].
    by apply insert_id.
  - intros u. unfold recent_of. by rewrite Hprefs.
  - intros u k. unfold category_weight. by rewrite Hprefs.
  - intros u k. unfold tag_weight. by rewrite Hprefs.
Qed.

Lemma record_access_without_metadata_witness :
  let up : gmap string preferences := {["7" := sample_preferences]} in
  sample_metadata !! "f9" = None ∧
  let up' := record_access sample_metadata up "7" "f9" in
  up' = match up !! "7" with
        | Some _ => up
        | None => <["7" := empty_preferences]> up
        end ∧
  (∀ u, recent_of up' u = recent_of up u) ∧
  (∀ u k, category_weight up' u k = category_weight up u k) ∧
  (∀ u k, tag_weight up' u k = tag_weight up u k).
Proof.
  split; [reflexivity|].
  apply (record_access_without_metadata sample_metadata
           {["7" := sample_preferences]} "7" "f9").
  reflexivity.
Defined.

(** On every store built by the tracker the empty category name carries
    no weight, so the ranking property holds there for every user. *)
Corollary get_recommendations_ranking_reachable fm up user_id prefs catalog
    (count : nat) :
  tracker_reachable up → up !! user_id = Some prefs → NoDup catalog.*1 →
  ∃ ranked,
    ranked_desc ((λ e, (e.1, preference_score fm prefs e.1 e.2)) <$>
                 filter (λ e, e.1 ∉ recently_accessed prefs) catalog) ranked ∧
    get_recommendations fm up user_id catalog (Z.of_nat count)
    = take count ranked.*1.
Proof.
  intros Hreach Hp Hnd.
  destruct (tracker_reachable_ok up Hreach user_id prefs Hp) as [_ Hempty].
  by destruct (get_recommendations_ranked fm up user_id prefs catalog count
                 Hp Hnd Hempty) as [_ ?].
Qed.

(** * Further properties of the module and of its callers *)

(** ** The preference tracker in detail *)

Lemma updated_record_merge fm p file_id category tags ep :
  updated_record fm p file_id category tags ep =
  match ep with
  | Some e => merge_explicit e (updated_record fm p file_id category tags None)
  | None => updated_record fm p file_id category tags None
  end.
Proof.
  unfold updated_record.
  destruct (match file_id with Some _ => _ | None => _ end). by destruct ep.
Qed.

Lemma access_block_explicit meta file_id p :
  explicit_preferences (access_block meta file_id p).1 = explicit_preferences p.
Proof.
  unfold access_block. cbn [fst].
  match goal with |- context [fold_left (bump_tag 1) ?ts ?q] =>
    destruct (fold_bump_tag_fields 1 ts q) as (_ & _ & ->)
  end.
  destruct (md_category meta); [destruct (Py.truthy _)|]; done.
Qed.

Lemma updated_record_explicit fm p file_id category tags ep :
  explicit_preferences (updated_record fm p file_id category tags ep)
  = default ∅ ep ∪ explicit_preferences p.
Proof.
  assert (explicit_preferences (updated_record fm p file_id category tags None)
          = explicit_preferences p) as Hnone.
  { unfold updated_record.
    destruct file_id as [f|]; [destruct (Py.truthy (Some f)); [destruct (fm !! f) as [meta|]|]|].
    1: pose proof (access_block_explicit meta f p) as Ha;
       destruct (access_block meta f p) as [p1 c1]; cbn [fst] in Ha;
       rewrite <- Ha; clear Ha; revert p1; generalize c1.
    2-4: generalize p; generalize category.
    all: intros c q; destruct tags as [ts|];
      [destruct (fold_bump_tag_fields 3 ts
         (match c with
          | Some c0 => if Py.truthy c then bump_category 3 c0 q else q
          | None => q
          end)) as (_ & _ & ->)|];
      destruct c as [c0|]; [destruct (Py.truthy _)| |destruct (Py.truthy _)|]; done. }
  rewrite updated_record_merge. destruct ep as [e|]; cbn.
  - by rewrite Hnone.
  - by rewrite Hnone, (left_id_L ∅ (∪)).
Qed.

Lemma updated_record_no_file fm p category tags ep :
  let p' := updated_record fm p None category tags ep in
  (∀ k, weight (favorite_categories p') k
        = weight (favorite_categories p) k
          + (if decide (category = Some k ∧ k ≠ "") then 3 else 0)) ∧
  (∀ t, weight (favorite_tags p') t
        = weight (favorite_tags p) t + 3 * occurrences t (default [] tags)) ∧
  recently_accessed p' = recently_accessed p.
Proof.
  clear lower.
  cbn zeta. rewrite updated_record_merge.
  assert (∀ e q, favorite_categories (merge_explicit e q) = favorite_categories q
                 ∧ favorite_tags (merge_explicit e q) = favorite_tags q
                 ∧ recently_accessed (merge_explicit e q) = recently_accessed q)
    as Hm by done.
  set (q := updated_record fm p None category tags None).
  assert ((∀ k, weight (favorite_categories q) k
        = weight (favorite_categories p) k
          + (if decide (category = Some k ∧ k ≠ "") then 3 else 0)) ∧
     (∀ t, weight (favorite_tags q) t
        = weight (favorite_tags p) t + 3 * occurrences t (default [] tags)) ∧
     recently_accessed q = recently_accessed p) as Hq.
  { unfold q, updated_record.
    set (p2 := match category with Some _ => _ | None => _ end).
    assert ((∀ k, weight (favorite_categories p2) k
        = weight (favorite_categories p) k
          + (if decide (category = Some k ∧ k ≠ "") then 3 else 0)) ∧
      favorite_tags p2 = favorite_tags p ∧
      recently_accessed p2 = recently_accessed p) as (Hc & Ht & Hr).
    { unfold p2. destruct category as [c|].
      - destruct (Py.truthy (Some c)) eqn:Hc.
        + apply truthy_Some in Hc. cbn. split_and!; try done.
          intros k. rewrite weight_bump.
          repeat case_decide; subst; try lia; naive_solver.
        + split_and!; try done. intros k. rewrite decide_False; [lia|].
          intros [[= <-] Hk]. apply truthy_Some in Hk. congruence.
      - split_and!; try done. intros k. rewrite decide_False; [lia|].
        by intros [? _]. }
    clearbody p2. destruct tags as [ts|]; cbn [default].
    - destruct (fold_bump_tag_fields 3 ts p2) as (-> & -> & _).
      split_and!; [done| |done].
      intros t. by rewrite fold_bump_tag_weight, Ht.
    - split_and!; [done| |done]. intros t. rewrite Ht. unfold occurrences. cbn. lia. }
  destruct ep as [e|]; [|done].
  destruct (Hm e q) as (-> & -> & ->). done.
Qed.

(** X1. An interest signal ([update_user_preferences] without a file):
    the named category, unless it is empty, gains exactly 3 for the user;
    every tag gains 3 per occurrence in the given list; no other weight of
    any user changes and no [recently_accessed] list changes. *)
Theorem update_interest_effect fm up user_id category tags ep u k :
  let up' := update_user_preferences fm up user_id None category tags ep in
  category_weight up' u k
  = category_weight up u k
    + (if decide (u = user_id ∧ category = Some k ∧ k ≠ "") then 3 else 0) ∧
  tag_weight up' u k
  = tag_weight up u k
    + (if decide (u = user_id) then 3 * occurrences k (default [] tags) else 0) ∧
  recent_of up' u = recent_of up u.
Proof.
  clear lower.
  cbn zeta. unfold category_weight, tag_weight, recent_of.
  rewrite prefs_of_update.
  destruct (decide (user_id = u)) as [->|Hne].
  - destruct (updated_record_no_file fm (prefs_of up u) category tags ep)
      as (Hc & Ht & Hr).
    rewrite Hc, Ht, Hr, (decide_True (P := u = u)) by done.
    split_and!; [|done|done]. repeat case_decide; try lia; naive_solver.
  - rewrite !decide_False by naive_solver. split_and!; [lia|lia|done].
Qed.

(** X2. Whatever else a call of [update_user_preferences] does, the
    user's explicit preferences are merged key by key with the given
    mapping: a given key takes the new value, every other key keeps its
    old one, and no other user's explicit preferences change. *)
Theorem update_explicit_preferences_merge
    fm up user_id file_id category tags ep u key :
  let up' := update_user_preferences fm up user_id file_id category tags ep in
  explicit_preferences (prefs_of up' u) !! key =
  if decide (u = user_id)
  then match default ∅ ep !! key with
       | Some v => Some v
       | None => explicit_preferences (prefs_of up u) !! key
       end
  else explicit_preferences (prefs_of up u) !! key.
Proof.
  cbn zeta. rewrite prefs_of_update.
  destruct (decide (user_id = u)) as [->|Hne].
  - rewrite decide_True by done.
    rewrite updated_record_explicit, lookup_union.
    destruct (default ∅ ep !! key), (explicit_preferences (prefs_of up u) !! key); done.
  - by rewrite decide_False by naive_solver.
Qed.

(** X3. [update_user_preferences] touches one record only: afterwards the
    user it was called for has a record, every other user's record (or
    absence of one) is as before, and the set of known users has grown by
    at most that user. *)
Theorem update_user_preferences_frame fm up user_id file_id category tags ep :
  let up' := update_user_preferences fm up user_id file_id category tags ep in
  is_Some (up' !! user_id) ∧
  (∀ u, u ≠ user_id → up' !! u = up !! u) ∧
  dom up' = {[user_id]} ∪ dom up.
Proof.
  cbn zeta. rewrite update_user_preferences_record. split_and!.
  - rewrite lookup_insert_eq. eauto.
  - intros u Hu. by rewrite lookup_insert_ne.
  - by rewrite dom_insert_L.
Qed.

Lemma filter_ne_notin (x : string) (l : list string) :
  x ∉ l → filter (λ y, y ≠ x) l = l.
Proof.
  induction l as [|y l IH]; [done|]. intros Hx.
  apply not_elem_of_cons in Hx as [Hne Hx].
  rewrite filter_cons, decide_True by done. by rewrite IH.
Qed.

(** On a list without duplicates [list.remove] deletes every occurrence. *)
Lemma remove_filter x l : NoDup l → Py.remove x l = filter (λ y, y ≠ x) l.
Proof.
  clear lower.
  induction 1 as [|y l Hy Hl IH]; [done|]. cbn [Py.remove]. rewrite filter_cons.
  destruct (String.eqb_spec y x) as [->|Hne].
  - rewrite decide_False by naive_solver. by rewrite filter_ne_notin.
  - rewrite decide_True by done. by rewrite IH.
Qed.

Lemma move_to_front_perm (x : string) (l : list string) :
  NoDup l → x ∈ l → x :: filter (λ y, y ≠ x) l ≡ₚ l.
Proof.
  clear lower.
  induction 1 as [|y l Hy Hl IH]; [by intros ?%elem_of_nil|].
  intros Hx. rewrite filter_cons. destruct (decide (y = x)) as [->|Hne].
  - rewrite decide_False by naive_solver. by rewrite filter_ne_notin.
  - rewrite decide_True by done. rewrite Permutation_swap.
    f_equiv. apply IH. set_solver.
Qed.

(** X4. How an access to a file with a metadata record updates a
    well-formed [recently_accessed] list: a file already in the list moves
    to the front, the others keep their order and nothing is dropped; a
    new file goes to the front and, when the list is full, only the nine
    most recent of the old entries stay. *)
Theorem record_access_recency fm up user_id file_id meta :
  file_id ≠ "" → fm !! file_id = Some meta →
  recent_ok (prefs_of up user_id) →
  let recent := recent_of up user_id in
  let recent' := recent_of (record_access fm up user_id file_id) user_id in
  (file_id ∈ recent →
     recent' = file_id :: filter (λ x, x ≠ file_id) recent ∧ recent' ≡ₚ recent) ∧
  (file_id ∉ recent → recent' = file_id :: take 9 recent).
Proof.
  intros Hf Hmeta [Hlen Hnd]. cbn zeta. unfold recent_of.
  destruct (record_access_effect fm up user_id file_id meta Hf Hmeta) as (-> & _).
  split; intros Hin.
  - rewrite bool_decide_eq_true_2, remove_filter by done.
    pose proof (move_to_front_perm file_id _ Hnd Hin) as Hperm.
    rewrite take_ge; [done|]. apply Permutation_length in Hperm.
    cbn [length] in *. lia.
  - by rewrite bool_decide_eq_false_2 by done.
Qed.

Lemma record_access_recency_witness :
  let up : gmap string preferences := {["7" := sample_preferences]} in
  "f1" ≠ "" ∧
  sample_metadata !! "f1" =
    Some (Metadata (Some "Code") "py" ["python"] None false None 0 "t0") ∧
  recent_ok (prefs_of up "7") ∧
  let recent := recent_of up "7" in
  let recent' := recent_of (record_access sample_metadata up "7" "f1") "7" in
  ("f1" ∈ recent →
     recent' = "f1" :: filter (λ x, x ≠ "f1") recent ∧ recent' ≡ₚ recent) ∧
  ("f1" ∉ recent → recent' = "f1" :: take 9 recent).
Proof.
  assert (recent_ok (prefs_of ({["7" := sample_preferences]}
                                : gmap string preferences) "7")) as Hok.
  { split; [vm_compute; lia|]. apply (bool_decide_unpack _). vm_compute. exact I. }
  split; [discriminate|]. split; [reflexivity|]. split; [exact Hok|].
  apply (record_access_recency sample_metadata {["7" := sample_preferences]}
           "7" "f1" _ ltac:(discriminate) eq_refl Hok).
Defined.

(** X5. What one access does to the weights: for the accessing user every
    tag of the file gains 1 per occurrence in the file's tag list, and the
    file's category, unless it is missing or empty, gains 4 (1 in the
    access block and 3 more in the interest block, which sees the
    reassigned [category]); no weight of any other user changes. *)
Theorem record_access_weights fm up user_id file_id meta u k :
  file_id ≠ "" → fm !! file_id = Some meta →
  let up' := record_access fm up user_id file_id in
  tag_weight up' u k
  = tag_weight up u k
    + (if decide (u = user_id) then occurrences k (md_tags meta) else 0) ∧
  category_weight up' u k
  = category_weight up u k
    + (if decide (u = user_id ∧ md_category meta = Some k ∧ k ≠ "")
       then 4 else 0).
Proof.
  clear lower.
  intros Hf Hmeta. cbn zeta. unfold tag_weight, category_weight.
  destruct (decide (u = user_id)) as [->|Hne].
  - destruct (record_access_effect fm up user_id file_id meta Hf Hmeta)
      as (_ & Ht & Hc).
    rewrite Ht, Hc. split; [done|]. repeat case_decide; try lia; naive_solver.
  - unfold record_access. rewrite prefs_of_update.
    rewrite !decide_False by naive_solver. lia.
Qed.

Lemma record_access_weights_witness :
  "f1" ≠ "" ∧
  sample_metadata !! "f1" =
    Some (Metadata (Some "Code") "py" ["python"] None false None 0 "t0") ∧
  let up' := record_access sample_metadata ∅ "7" "f1" in
  tag_weight up' "7" "python"
  = tag_weight ∅ "7" "python"
    + (if decide ("7" = "7") then occurrences "python" ["python"] else 0) ∧
  category_weight up' "7" "python"
  = category_weight ∅ "7" "python"
    + (if decide ("7" = "7" ∧ Some "Code" = Some "python" ∧ "python" ≠ "")
       then 4 else 0).
Proof.
  split; [discriminate|]. split; [reflexivity|].
  apply (record_access_weights sample_metadata ∅ "7" "f1" _ "7" "python"
           ltac:(discriminate) eq_refl).
Defined.

(** ** The recommender in detail *)

Lemma slice_to_take {A} (l : list A) c : ∃ k, Py.slice_to l c = take k l.
Proof. unfold Py.slice_to. destruct (0 <=? c); eauto. Qed.

Lemma scored_keys {V} (score : string → V → Z) (l : list (string * V)) :
  ((λ e, (e.1, score e.1 e.2)) <$> l).*1 = l.*1.
Proof. rewrite <- list_fmap_compose. by apply list_fmap_ext. Qed.

Lemma filter_keys {V} (recent : list string) (l : list (string * V)) :
  (filter (λ e, e.1 ∉ recent) l).*1 = filter (λ f, f ∉ recent) l.*1.
Proof.
  induction l as [|[k v] l IH]; [done|].
  rewrite fmap_cons, !filter_cons. cbn [fst].
  case_decide; [rewrite fmap_cons|]; by rewrite IH.
Qed.

Lemma get_recommendations_form fm up user_id prefs catalog count :
  up !! user_id = Some prefs → NoDup catalog.*1 →
  get_recommendations fm up user_id catalog count =
  (Py.slice_to
     (Py.sorted_desc
        ((λ e, (e.1, recommendation_score fm (favorite_categories prefs)
                       (favorite_tags prefs) e.1 e.2))
           <$> filter (λ e, e.1 ∉ recently_accessed prefs) catalog)) count).*1.
Proof.
  intros Hp Hnd. rewrite (get_recommendations_scored _ _ _ _ _ _ Hp).
  rewrite score_loop_spec by done. do 3 f_equal.
  erewrite list_filter_iff.
  - apply Forall_fmap_ext_1, Forall_forall. intros [k i] Hin. cbn.
    apply list_elem_of_filter in Hin as [Hk _]. cbn in Hk.
    by rewrite bool_decide_eq_false_2 by done.
  - intros [k i]. cbn. case_bool_decide; split; done.
Qed.

Lemma get_recommendations_not_recent fm up user_id prefs catalog count f :
  up !! user_id = Some prefs → NoDup catalog.*1 →
  f ∈ get_recommendations fm up user_id catalog count →
  f ∈ catalog.*1 ∧ f ∉ recently_accessed prefs.
Proof.
  intros Hp Hnd. rewrite (get_recommendations_form _ _ _ _ _ _ Hp Hnd).
  destruct (slice_to_take
    (Py.sorted_desc
       ((λ e, (e.1, recommendation_score fm (favorite_categories prefs)
                      (favorite_tags prefs) e.1 e.2))
          <$> filter (λ e, e.1 ∉ recently_accessed prefs) catalog)) count)
    as [k ->].
  rewrite fmap_take. intros Hf%subseteq_take.
  rewrite sorted_desc_perm, scored_keys,
    filter_keys in Hf.
  by apply list_elem_of_filter in Hf as [? ?].
Qed.

(** X6. Whatever the user and the count, the recommendation lists keys of
    the catalog and lists none twice, so the membership test in
    [handle_recommend_command] never skips an entry; for a count of at
    least 0 it holds at most [count] identifiers. *)
Theorem get_recommendations_within_catalog fm up user_id catalog count :
  NoDup catalog.*1 →
  let result := get_recommendations fm up user_id catalog count in
  result ⊆ catalog.*1 ∧ NoDup result ∧
  (0 ≤ count → Z.of_nat (length result) ≤ count).
Proof.
  intros Hnd. cbn zeta. destruct (up !! user_id) as [prefs|] eqn:Hp.
  - split_and!.
    + intros f Hf. by eapply get_recommendations_not_recent.
    + rewrite (get_recommendations_form _ _ _ _ _ _ Hp Hnd).
      match goal with |- context [Py.slice_to ?l count] =>
        destruct (slice_to_take l count) as [k ->]
      end.
      rewrite fmap_take. eapply sublist_NoDup; [|apply sublist_take].
      rewrite sorted_desc_perm, scored_keys,
        filter_keys.
      by apply NoDup_filter.
    + intros Hc. rewrite (get_recommendations_form _ _ _ _ _ _ Hp Hnd).
      rewrite length_fmap, <- (Z2Nat.id count), slice_to_nat, length_take by done.
      lia.
  - unfold get_recommendations. rewrite Hp.
    match goal with |- context [Py.slice_to ?l ?c] =>
      destruct (slice_to_take l c) as [k Hk]
    end.
    split_and!.
    + rewrite Hk. apply subseteq_take.
    + rewrite Hk. eapply sublist_NoDup; [done|apply sublist_take].
    + intros Hc. rewrite <- (Z2Nat.id (Z.min _ _)), slice_to_nat, length_take by lia.
      lia.
Qed.

Lemma get_recommendations_within_catalog_witness :
  NoDup sample_catalog.*1 ∧
  let result :=
    get_recommendations sample_metadata {["7" := sample_preferences]} "7"
                        sample_catalog 1 in
  result ⊆ sample_catalog.*1 ∧ NoDup result ∧
  (0 ≤ 1 → Z.of_nat (length result) ≤ 1).
Proof.
  assert (NoDup sample_catalog.*1) as Hnd
    by (apply (bool_decide_unpack _); vm_compute; exact I).
  split; [exact Hnd|].
  apply (get_recommendations_within_catalog sample_metadata
           {["7" := sample_preferences]} "7" sample_catalog 1 Hnd).
Defined.

(** A list whose scores already descend is left as it is by the sort. *)
Lemma sorted_desc_id {K} (l : list (K * Z)) :
  StronglySorted (λ a b, b.2 ≤ a.2) l → Py.sorted_desc l = l.
Proof.
  intros Hl. apply (ranked_desc_unique l); [apply sorted_desc_ranked|].
  by split_and!.
Qed.

Lemma constant_scores_sorted {K} (l : list (K * Z)) s :
  Forall (λ e, e.2 = s) l → StronglySorted (λ a b, b.2 ≤ a.2) l.
Proof.
  induction 1 as [|x l Hx Hl IH]; constructor; [done|].
  eapply Forall_impl; [exact Hl|]. cbn. intros; lia.
Qed.

Lemma recommendation_score_no_signal fm file_id info :
  recommendation_score fm ∅ ∅ file_id info = 0.
Proof.
  unfold recommendation_score. destruct (fm !! _) as [meta|]; [|done].
  rewrite tag_loop_sum.
  assert (foldr Z.add 0 (weight (∅ : gmap string Z) <$> md_tags meta) = 0) as ->.
  { induction (md_tags meta) as [|t ts IH]; [done|]. cbn. rewrite IH.
    unfold weight. by rewrite lookup_empty. }
  destruct (md_category meta) as [c|]; [|done].
  destruct (Py.truthy (Some c)); [|done]. by rewrite lookup_empty.
Qed.

(** X7. A user whose record carries no weights gets the catalog in
    catalog order, without the recently accessed files: the first [count]
    such identifiers.  With an empty [recently_accessed] this is exactly
    the cold-start answer given to a user without a record. *)
Theorem get_recommendations_no_signal fm up user_id prefs catalog (count : nat) :
  up !! user_id = Some prefs → NoDup catalog.*1 →
  favorite_categories prefs = ∅ → favorite_tags prefs = ∅ →
  get_recommendations fm up user_id catalog (Z.of_nat count)
  = take count (filter (λ f, f ∉ recently_accessed prefs) catalog.*1) ∧
  (recently_accessed prefs = [] →
   get_recommendations fm up user_id catalog (Z.of_nat count)
   = get_recommendations fm ∅ user_id catalog (Z.of_nat count)).
Proof.
  intros Hp Hnd Hc Ht.
  assert (get_recommendations fm up user_id catalog (Z.of_nat count)
          = take count (filter (λ f, f ∉ recently_accessed prefs) catalog.*1))
    as Hres.
  { rewrite (get_recommendations_form _ _ _ _ _ _ Hp Hnd), Hc, Ht.
    rewrite slice_to_nat, fmap_take, sorted_desc_id.
    - by rewrite scored_keys, filter_keys.
    - apply (constant_scores_sorted _ 0), Forall_fmap, Forall_forall.
      intros [k i] _. apply recommendation_score_no_signal. }
  split; [done|]. intros Hr. rewrite Hres, Hr.
  unfold get_recommendations. rewrite lookup_empty.
  rewrite <- Nat2Z.inj_min, slice_to_nat.
  rewrite <- take_take, (take_ge catalog.*1 (length _)) by done.
  f_equal. clear. induction (catalog.*1) as [|k l IH]; [done|].
  rewrite filter_cons, decide_True by apply not_elem_of_nil. by rewrite IH.
Qed.

Lemma get_recommendations_no_signal_witness :
  let prefs := {| favorite_categories := ∅; favorite_tags := ∅;
                  recently_accessed := ["f0"]; explicit_preferences := ∅ |} in
  let up : gmap string preferences := {["7" := prefs]} in
  up !! "7" = Some prefs ∧ NoDup sample_catalog.*1 ∧
  favorite_categories prefs = ∅ ∧ favorite_tags prefs = ∅ ∧
  get_recommendations sample_metadata up "7" sample_catalog (Z.of_nat 2)
  = take 2 (filter (λ f, f ∉ recently_accessed prefs) sample_catalog.*1) ∧
  (recently_accessed prefs = [] →
   get_recommendations sample_metadata up "7" sample_catalog (Z.of_nat 2)
   = get_recommendations sample_metadata ∅ "7" sample_catalog (Z.of_nat 2)).
Proof.
  assert (NoDup sample_catalog.*1) as Hnd
    by (apply (bool_decide_unpack _); vm_compute; exact I).
  cbn zeta. split; [reflexivity|]. split; [exact Hnd|].
  split; [reflexivity|]. split; [reflexivity|].
  apply (get_recommendations_no_signal sample_metadata
           {["7" := Preferences ∅ ∅ ["f0"] ∅]} "7" (Preferences ∅ ∅ ["f0"] ∅)
           sample_catalog 2);
    [reflexivity|exact Hnd|reflexivity|reflexivity].
Defined.

(** X8. With a positive count and at least one catalog entry outside the
    user's recent history, the first recommendation exists and no eligible
    entry has a higher score than it. *)
Theorem get_recommendations_best_first
    fm up user_id prefs catalog (count : nat) file_id info :
  up !! user_id = Some prefs → NoDup catalog.*1 → (0 < count)%nat →
  (file_id, info) ∈ catalog → file_id ∉ recently_accessed prefs →
  let score := recommendation_score fm (favorite_categories prefs)
                                    (favorite_tags prefs) in
  ∃ best best_info,
    head (get_recommendations fm up user_id catalog (Z.of_nat count)) = Some best ∧
    (best, best_info) ∈ catalog ∧ (best ∉ recently_accessed prefs) ∧
    ∀ g i, (g, i) ∈ catalog → g ∉ recently_accessed prefs →
           score g i ≤ score best best_info.
Proof.
  clear lower.
  intros Hp Hnd Hcount Hin Hrecent score.
  rewrite (get_recommendations_form _ _ _ _ _ _ Hp Hnd), slice_to_nat.
  fold score.
  set (scored := (λ e, (e.1, score e.1 e.2)) <$>
                 filter (λ e, e.1 ∉ recently_accessed prefs) catalog).
  assert (∀ g i, (g, i) ∈ catalog → g ∉ recently_accessed prefs →
                 (g, score g i) ∈ Py.sorted_desc scored) as Hmem.
  { intros g i Hg Hr. rewrite sorted_desc_perm. unfold scored.
    apply list_elem_of_fmap. exists (g, i). split; [done|].
    by apply list_elem_of_filter. }
  pose proof (sorted_desc_sorted scored) as Hsorted.
  pose proof (sorted_desc_perm scored) as Hperm.
  destruct (Py.sorted_desc scored) as [|x rest] eqn:Hs.
  { specialize (Hmem _ _ Hin Hrecent). by apply elem_of_nil in Hmem. }
  assert (x ∈ scored) as Hx by (rewrite <- Hperm; set_solver).
  apply list_elem_of_fmap in Hx as ([b bi] & -> & Hb).
  apply list_elem_of_filter in Hb as [Hbr Hbc]. cbn in Hbr.
  exists b, bi. split_and!; [|done|done|].
  - destruct count; [lia|done].
  - intros g i Hg Hr. specialize (Hmem g i Hg Hr).
    apply StronglySorted_inv in Hsorted as [_ Hall].
    apply elem_of_cons in Hmem as [[= -> Hs']|Hmem]; [lia|].
    rewrite Forall_forall in Hall. apply (Hall _ Hmem).
Qed.

Lemma get_recommendations_best_first_witness :
  let up : gmap string preferences := {["7" := sample_preferences]} in
  let info := FileInfo (Some "notes") (Some "document") (Some 12) None in
  up !! "7" = Some sample_preferences ∧ NoDup sample_catalog.*1 ∧
  (0 < 3)%nat ∧ ("f0", info) ∈ sample_catalog ∧
  ("f0" ∉ recently_accessed sample_preferences) ∧
  let score := recommendation_score sample_metadata
                 (favorite_categories sample_preferences)
                 (favorite_tags sample_preferences) in
  ∃ best best_info,
    head (get_recommendations sample_metadata up "7" sample_catalog (Z.of_nat 3))
    = Some best ∧
    (best, best_info) ∈ sample_catalog ∧
    (best ∉ recently_accessed sample_preferences) ∧
    ∀ g i, (g, i) ∈ sample_catalog → g ∉ recently_accessed sample_preferences →
           score g i ≤ score best best_info.
Proof.
  assert (NoDup sample_catalog.*1) as Hnd
    by (apply (bool_decide_unpack _); vm_compute; exact I).
  assert (("f0", FileInfo (Some "notes") (Some "document") (Some 12) None)
          ∈ sample_catalog) as Hin by apply list_elem_of_here.
  assert ("f0" ∉ recently_accessed sample_preferences) as Hr
    by (cbn; not_in_literal).
  cbn zeta. split; [reflexivity|]. split; [exact Hnd|]. split; [lia|].
  split; [exact Hin|]. split; [exact Hr|].
  apply (get_recommendations_best_first sample_metadata
           {["7" := sample_preferences]} "7" sample_preferences
           sample_catalog 3 "f0"
           (FileInfo (Some "notes") (Some "document") (Some 12) None));
    [reflexivity|exact Hnd|lia|exact Hin|exact Hr].
Defined.

(** ** Access and upload as the bot performs them *)

Lemma track_file_access_lookup now fm file_id meta :
  fm !! file_id = Some meta →
  ∃ meta', track_file_access now fm file_id !! file_id = Some meta' ∧
           md_category meta' = md_category meta ∧ md_tags meta' = md_tags meta ∧
           md_last_accessed meta' = Some now ∧
           md_access_count meta' = md_access_count meta + 1.
Proof.
  intros Hm. unfold track_file_access. rewrite Hm, lookup_insert_eq. eauto 10.
Qed.

Lemma record_access_head fm up user_id file_id meta :
  file_id ≠ "" → fm !! file_id = Some meta →
  ∃ p', record_access fm up user_id file_id !! user_id = Some p' ∧
        head (recently_accessed p') = Some file_id.
Proof.
  intros Hf Hm.
  destruct (record_access_effect fm up user_id file_id meta Hf Hm) as (Hr & _).
  assert (is_Some (record_access fm up user_id file_id !! user_id)) as [p' Hp'].
  { unfold record_access. rewrite update_user_preferences_record, lookup_insert_eq.
    eauto. }
  exists p'. split; [done|].
  unfold prefs_of in Hr at 1. rewrite Hp' in Hr.
  cbn [default from_option id] in Hr. by rewrite Hr.
Qed.

(** X9. After the tracking step of a download of a file that has a
    metadata record (under a non-empty identifier), the file's access
    count is one higher, the file heads the user's [recently_accessed],
    and no recommendation to that user, for any catalog and count,
    contains it. *)
Theorem track_download_effect now fm up user_id file_id info meta catalog count :
  meta_id_of file_id info ≠ "" → fm !! meta_id_of file_id info = Some meta →
  NoDup catalog.*1 →
  let unique_id := meta_id_of file_id info in
  let '(fm', up') := track_download now fm up user_id file_id info in
  access_count_of fm' unique_id = access_count_of fm unique_id + 1 ∧
  head (recent_of up' user_id) = Some unique_id ∧
  unique_id ∉ get_recommendations fm' up' user_id catalog count.
Proof.
  intros Hf Hm Hnd. cbn zeta. unfold track_download.
  destruct (track_file_access_lookup now fm _ meta Hm) as (meta' & Hm' & _).
  destruct (record_access_head (track_file_access now fm (meta_id_of file_id info))
              up user_id _ meta' Hf Hm') as (p' & Hp' & Hhead).
  unfold record_access in Hp'. split_and!.
  - rewrite access_count_of_track, decide_True; [done|]. split; [done|]. eauto.
  - unfold recent_of, prefs_of. by rewrite Hp'.
  - intros Hrec.
    apply (get_recommendations_not_recent _ _ _ _ _ _ _ Hp' Hnd) in Hrec as [_ Hrec].
    apply Hrec. by apply head_Some_elem_of.
Qed.

Lemma track_download_effect_witness :
  let info := FileInfo (Some "main.py") (Some "document") (Some 40) (Some "f1") in
  meta_id_of "f1" info ≠ "" ∧
  sample_metadata !! meta_id_of "f1" info =
    Some (Metadata (Some "Code") "py" ["python"] None false None 0 "t0") ∧
  NoDup sample_catalog.*1 ∧
  let unique_id := meta_id_of "f1" info in
  let '(fm', up') := track_download "t1" sample_metadata ∅ "7" "f1" info in
  access_count_of fm' unique_id = access_count_of sample_metadata unique_id + 1 ∧
  head (recent_of up' "7") = Some unique_id ∧
  unique_id ∉ get_recommendations fm' up' "7" sample_catalog 8.
Proof.
  assert (NoDup sample_catalog.*1) as Hnd
    by (apply (bool_decide_unpack _); vm_compute; exact I).
  cbn zeta. split; [discriminate|]. split; [reflexivity|]. split; [exact Hnd|].
  apply (track_download_effect "t1" sample_metadata ∅ "7" "f1"
           (FileInfo (Some "main.py") (Some "document") (Some 40) (Some "f1"))
           (Metadata (Some "Code") "py" ["python"] None false None 0 "t0")
           sample_catalog 8);
    [discriminate|reflexivity|exact Hnd].
Defined.

(** X10. After the analysis step of an upload under a non-empty
    identifier, the metadata store holds the freshly classified record for
    the file, with access count 0, and no other record has changed; the
    file heads the uploader's [recently_accessed] and no recommendation to
    the uploader contains it. *)
Theorem classify_upload_effect
    key classify now fm up user_id unique_id info catalog count :
  unique_id ≠ "" → NoDup catalog.*1 →
  let '(fm', up') :=
    classify_upload key classify now fm up user_id unique_id info in
  fm' !! unique_id = Some (analyze_file_with_ai key classify now info None) ∧
  access_count_of fm' unique_id = 0 ∧
  (∀ f, f ≠ unique_id → fm' !! f = fm !! f) ∧
  head (recent_of up' user_id) = Some unique_id ∧
  unique_id ∉ get_recommendations fm' up' user_id catalog count.
Proof.
  intros Hf Hnd. unfold classify_upload.
  set (meta := analyze_file_with_ai key classify now info None).
  assert (<[unique_id := meta]> fm !! unique_id = Some meta) as Hm
    by apply lookup_insert_eq.
  destruct (record_access_head (<[unique_id := meta]> fm) up user_id unique_id
              meta Hf Hm) as (p' & Hp' & Hhead).
  unfold record_access in Hp'. split_and!.
  - done.
  - unfold access_count_of. rewrite Hm. unfold meta, analyze_file_with_ai.
    destruct (String.eqb key ""); [done|]. by destruct (classify _).
  - intros f Hne. by rewrite lookup_insert_ne.
  - unfold recent_of, prefs_of. by rewrite Hp'.
  - intros Hrec.
    apply (get_recommendations_not_recent _ _ _ _ _ _ _ Hp' Hnd) in Hrec as [_ Hrec].
    apply Hrec. by apply head_Some_elem_of.
Qed.

(** ** The similarity finder in detail *)

Lemma get_similar_files_form fm file_id catalog count ref :
  fm !! reference_meta_id file_id catalog = Some ref → NoDup catalog.*1 →
  get_similar_files fm file_id catalog count =
  (Py.slice_to
     (Py.sorted_desc
        ((λ e, (e.1, default 0 (tag_overlap_score ref <$> fm !! meta_id_of e.1 e.2)))
           <$> filter (λ e, e.1 ≠ file_id ∧ is_Some (fm !! meta_id_of e.1 e.2))
                      catalog)) count).*1.
Proof.
  clear lower.
  intros Href Hnd. rewrite (get_similar_files_scored _ _ _ _ _ Href).
  rewrite score_loop_spec by done. do 3 f_equal.
  erewrite list_filter_iff.
  - apply Forall_fmap_ext_1, Forall_forall. intros [k i] Hin. cbn.
    apply list_elem_of_filter in Hin as [[Hk _] _]. cbn in Hk.
    by destruct (String.eqb_spec k file_id).
  - intros [k i]. cbn. destruct (String.eqb_spec k file_id) as [->|Hne].
    + split; [by intros [? ?]|by intros [? _]].
    + rewrite fmap_is_Some. naive_solver.
Qed.

(** X11. Whatever the count, the similar files are keys of the catalog,
    none is listed twice, none is the reference, and each has a metadata
    record; in particular they can all be looked up by the caller. *)
Theorem get_similar_files_within_catalog fm file_id catalog count :
  NoDup catalog.*1 →
  let result := get_similar_files fm file_id catalog count in
  NoDup result ∧
  ∀ f, f ∈ result →
       f ≠ file_id ∧
       ∃ info, (f, info) ∈ catalog ∧ is_Some (fm !! meta_id_of f info).
Proof.
  intros Hnd. cbn zeta.
  destruct (fm !! reference_meta_id file_id catalog) as [ref|] eqn:Href.
  - rewrite (get_similar_files_form _ _ _ _ _ Href Hnd).
    match goal with |- context [Py.slice_to ?l count] =>
      destruct (slice_to_take l count) as [k ->]
    end.
    rewrite fmap_take. split.
    + eapply sublist_NoDup; [|apply sublist_take].
      rewrite sorted_desc_perm.
      rewrite (scored_keys
        (λ k i, default 0 (tag_overlap_score ref <$> fm !! meta_id_of k i))).
      eapply sublist_NoDup; [exact Hnd|]. apply fmap_sublist, sublist_filter.
    + intros f Hf%subseteq_take.
      apply list_elem_of_fmap in Hf as ([k' s] & -> & Hin).
      rewrite sorted_desc_perm in Hin.
      apply list_elem_of_fmap in Hin as ([g gi] & [= -> ->] & Hin).
      apply list_elem_of_filter in Hin as [[Hne Hsome] Hin]. cbn in *. eauto.
  - unfold get_similar_files. rewrite Href. split; [constructor|].
    by intros f ?%elem_of_nil.
Qed.

Lemma get_similar_files_within_catalog_witness :
  let fm : gmap string metadata :=
    <["f2" := Metadata (Some "Code") "py" ["python"; "lib"] None false None 0 "t1"]>
      sample_metadata in
  NoDup sample_catalog.*1 ∧
  let result := get_similar_files fm "f1" sample_catalog 2 in
  NoDup result ∧
  ∀ f, f ∈ result →
       f ≠ "f1" ∧
       ∃ info, (f, info) ∈ sample_catalog ∧ is_Some (fm !! meta_id_of f info).
Proof.
  assert (NoDup sample_catalog.*1) as Hnd
    by (apply (bool_decide_unpack _); vm_compute; exact I).
  split; [exact Hnd|].
  apply (get_similar_files_within_catalog
           (<["f2" := Metadata (Some "Code") "py" ["python"; "lib"] None false
                        None 0 "t1"]> sample_metadata)
           "f1" sample_catalog 2 Hnd).
Defined.

(** X12. The similarity score as the code computes it is symmetric in the
    two records, lies between 0 and 5 plus twice the number of distinct
    reference tags, reaches that maximum exactly for a record of the same
    category that carries all the reference's tags, and is 0 for a record
    of another category that shares no tag; repeated tags count once. *)
Theorem similarity_score_properties ref meta :
  let score := similarity_score (md_category ref) (list_to_set (md_tags ref)) meta in
  let ref_tags : gset string := list_to_set (md_tags ref) in
  score = similarity_score (md_category meta) (list_to_set (md_tags meta)) ref ∧
  0 ≤ score ≤ 5 + 2 * Z.of_nat (size ref_tags) ∧
  (md_category meta = md_category ref → md_tags ref ⊆ md_tags meta →
   score = 5 + 2 * Z.of_nat (size ref_tags)) ∧
  (md_category meta ≠ md_category ref →
   (∀ t, t ∈ md_tags ref → t ∉ md_tags meta) → score = 0).
Proof.
  clear lower.
  cbn zeta. unfold similarity_score.
  set (A := list_to_set (md_tags ref) : gset string).
  set (B := list_to_set (md_tags meta) : gset string).
  assert (size (A ∩ B) ≤ size A)%nat as Hle by (apply subseteq_size; set_solver).
  split_and!.
  - rewrite (comm_L (∩) B A). repeat case_bool_decide; try lia; congruence.
  - case_bool_decide; lia.
  - case_bool_decide; lia.
  - intros Hcat Hsub. assert (A ∩ B = A) as -> by (unfold A, B; set_solver).
    rewrite bool_decide_eq_true_2 by done. lia.
  - intros Hcat Hdis. assert (A ∩ B = ∅) as -> by (unfold A, B; set_solver).
    rewrite bool_decide_eq_false_2 by done. by rewrite size_empty.
Qed.

(** ** The categorizer and the category listing *)

Lemma append_other_keys category file_id (categories : list (string * list string)) :
  category ∉ categories.*1 →
  (λ e, (e.1, if decide (e.1 = category) then e.2 ++ [file_id] else e.2))
    <$> categories = categories.
Proof.
  induction categories as [|[c files] rest IH]; [done|].
  rewrite !fmap_cons. cbn [fst snd]. intros [Hne Hc]%not_elem_of_cons.
  rewrite decide_False by done. f_equal. by apply IH.
Qed.

Lemma dict_append_map category file_id (categories : list (string * list string)) :
  NoDup categories.*1 →
  dict_append category file_id categories =
  (λ e, (e.1, if decide (e.1 = category) then e.2 ++ [file_id] else e.2))
    <$> categories.
Proof.
  induction categories as [|[c files] rest IH]; [done|].
  rewrite !fmap_cons. cbn [fst snd dict_append]. intros [Hc Hrest]%NoDup_cons.
  destruct (String.eqb_spec c category) as [->|Hne].
  - rewrite decide_True by done. by rewrite append_other_keys.
  - rewrite decide_False by done. f_equal. by apply IH.
Qed.

Lemma organize_loop_exact fm catalog (categories : list (string * list string)) :
  NoDup categories.*1 → categories.*1 = DEFAULT_CATEGORIES →
  organize_loop fm catalog categories =
  (λ e, (e.1, e.2 ++ listed_under fm e.1 catalog)) <$> categories.
Proof.
  revert categories. induction catalog as [|[k i] catalog IH]; intros cats Hnd Hkeys.
  - cbn. unfold listed_under. rewrite <- (list_fmap_id cats) at 1.
    apply list_fmap_ext. intros _ [c files] _. cbn. by rewrite app_nil_r.
  - cbn [organize_loop fold_left].
    change (fold_left _ catalog ?a) with (organize_loop fm catalog a).
    set (cats' := if bool_decide _ then _ else _).
    assert (cats' = dict_append (listed_category fm k i) k cats) as ->.
    { unfold cats', listed_category. rewrite Hkeys. by case_bool_decide. }
    rewrite IH; [|by rewrite dict_append_keys..].
    rewrite dict_append_map, <- list_fmap_compose by done.
    apply list_fmap_ext. intros _ [c files] _. cbn [fst snd compose].
    unfold listed_under. rewrite filter_cons. cbn [fst snd].
    destruct (decide (c = listed_category fm k i)) as [->|Hne].
    + rewrite decide_True by done. by rewrite <- app_assoc.
    + by rewrite decide_False by done.
Qed.

Lemma drop_empty_filter (categories : list (string * list string)) :
  List.filter (fun '(cat, files) => negb (bool_decide (files = []))) categories
  = filter (λ e, e.2 ≠ []) categories.
Proof.
  induction categories as [|[c files] rest IH]; [done|].
  cbn [List.filter]. rewrite filter_cons, IH. cbn [snd].
  by case_bool_decide; case_decide.
Qed.

Lemma organize_files_by_category_listing fm catalog :
  organize_files_by_category fm catalog =
  filter (λ e, e.2 ≠ [])
         ((λ c, (c, listed_under fm c catalog)) <$> DEFAULT_CATEGORIES).
Proof.
  rewrite organize_files_by_category_loop, drop_empty_filter.
  rewrite organize_loop_exact;
    [|rewrite initial_categories_keys; apply DEFAULT_CATEGORIES_NoDup
     |apply initial_categories_keys].
  by rewrite <- list_fmap_compose.
Qed.

(** X13. The categorizer's answer, exactly: the fixed categories in
    their fixed order, each with the identifiers filed under it in
    catalog order, the unrecognised and unclassified ones under "Other",
    and the categories without a file left out. *)
Theorem organize_files_by_category_order fm catalog :
  organize_files_by_category fm catalog =
  filter (λ e, e.2 ≠ [])
         ((λ c, (c, (filter (λ e, listed_category fm e.1 e.2 = c) catalog).*1))
            <$> DEFAULT_CATEGORIES) ∧
  (organize_files_by_category fm catalog).*1 `sublist_of` DEFAULT_CATEGORIES ∧
  ∀ c files, (c, files) ∈ organize_files_by_category fm catalog →
             files `sublist_of` catalog.*1.
Proof.
  rewrite organize_files_by_category_listing. split_and!.
  - done.
  - etrans; [apply fmap_sublist, sublist_filter|].
    rewrite <- list_fmap_compose. by rewrite list_fmap_id.
  - intros c files Hin. apply list_elem_of_filter in Hin as [_ Hin].
    apply list_elem_of_fmap in Hin as (c' & [= -> ->] & _).
    apply fmap_sublist, sublist_filter.
Qed.

Lemma category_files_filter fm found_category user_files :
  category_files fm found_category user_files =
  filter (λ e, md_category <$> fm !! meta_id_of e.1 e.2 = Some (Some found_category))
         user_files.
Proof.
  unfold category_files.
  enough (∀ acc,
    fold_left
      (fun category_files '(file_id, info) =>
         let meta_id := meta_id_of file_id info in
         match fm !! meta_id with
         | Some meta =>
             if bool_decide (md_category meta = Some found_category)
             then category_files ++ [(file_id, info)]
             else category_files
         | None => category_files
         end) user_files acc
    = acc ++ filter (λ e, md_category <$> fm !! meta_id_of e.1 e.2
                          = Some (Some found_category)) user_files) as H
    by apply (H []).
  induction user_files as [|[k i] l IH]; intros acc; cbn [fold_left].
  - by rewrite app_nil_r.
  - rewrite IH, filter_cons. cbn [fst snd].
    destruct (fm !! meta_id_of k i) as [meta|]; cbn.
    + case_bool_decide as Hc.
      * rewrite decide_True by (by rewrite Hc). by rewrite <- app_assoc.
      * rewrite decide_False; [done|]. intros [=]. done.
    + by rewrite decide_False.
Qed.

Lemma listed_category_recognised fm file_id info c :
  c ∈ DEFAULT_CATEGORIES → c ≠ "Other" →
  md_category <$> fm !! meta_id_of file_id info = Some (Some c)
  ↔ listed_category fm file_id info = c.
Proof.
  intros Hc Hother. unfold listed_category, filed_category.
  destruct (fm !! meta_id_of file_id info) as [meta|]; cbn.
  - destruct (md_category meta) as [c'|]; cbn.
    + case_bool_decide; split; intros; simplify_eq; done.
    + case_bool_decide; split; intros; simplify_eq; done.
  - case_bool_decide; split; intros; simplify_eq; done.
Qed.

(** X14. The listing of [handle_category_command] agrees with the
    categorizer: for a fixed category other than "Other" it shows exactly
    the files the categorizer files under that category, in the same
    order, and when it shows any, the categorizer returns that very list
    under that key.  For "Other" it shows only the files whose record
    says "Other", a sublist of the categorizer's "Other" list, which also
    holds the unclassified and unrecognised files. *)
Theorem category_files_consistent fm found_category user_files :
  found_category ∈ DEFAULT_CATEGORIES →
  let listing := (category_files fm found_category user_files).*1 in
  listing `sublist_of` listed_under fm found_category user_files ∧
  (found_category ≠ "Other" →
   listing = listed_under fm found_category user_files ∧
   (listing ≠ [] →
    (found_category, listing) ∈ organize_files_by_category fm user_files)).
Proof.
  intros Hc. cbn zeta. rewrite category_files_filter. split.
  - unfold listed_under. apply fmap_sublist.
    rewrite <- (list_filter_filter_l _
      (λ e, listed_category fm e.1 e.2 = found_category)); [apply sublist_filter|].
    intros [k i]. cbn. unfold listed_category, filed_category.
    destruct (fm !! meta_id_of k i) as [meta|]; [|done]. cbn.
    intros [= ->]. cbn. by rewrite bool_decide_eq_true_2.
  - intros Hother.
    assert ((filter (λ e, md_category <$> fm !! meta_id_of e.1 e.2
                          = Some (Some found_category)) user_files).*1
            = listed_under fm found_category user_files) as ->.
    { unfold listed_under. f_equal. apply list_filter_iff.
      intros [k i]. by apply listed_category_recognised. }
    split; [done|]. intros Hne.
    rewrite organize_files_by_category_listing.
    apply list_elem_of_filter. split; [done|].
    apply list_elem_of_fmap. by exists found_category.
Qed.

Lemma category_files_consistent_witness :
  "Code" ∈ DEFAULT_CATEGORIES ∧
  let listing := (category_files sample_metadata "Code" sample_catalog).*1 in
  listing `sublist_of` listed_under sample_metadata "Code" sample_catalog ∧
  ("Code" ≠ "Other" →
   listing = listed_under sample_metadata "Code" sample_catalog ∧
   (listing ≠ [] →
    ("Code", listing) ∈ organize_files_by_category sample_metadata sample_catalog)).
Proof.
  assert ("Code" ∈ DEFAULT_CATEGORIES) as Hc
    by (apply (bool_decide_unpack _); vm_compute; exact I).
  split; [exact Hc|].
  apply (category_files_consistent sample_metadata "Code" sample_catalog Hc).
Defined.

Example category_files_sample :
  (category_files sample_metadata "Code" sample_catalog).*1 = ["f1"] ∧
  (category_files sample_metadata "Other" sample_catalog).*1 = [] ∧
  organize_files_by_category sample_metadata sample_catalog
  = [("Code", ["f1"]); ("Other", ["f0"; "f2"])].
Proof. by vm_compute. Qed.

(** X15. The category lookup of [handle_category_command] ignores case
    and answers with the canonical name: a name is found exactly when it
    equals one of the fixed categories up to case, and the answer is that
    category; a name written in ASCII is found exactly when replacing its
    letters A to Z by a to z gives one of the ten lower-cased names. *)
Theorem find_category_case_insensitive category_name :
  Py.lower_on_ascii lower →
  (∀ c, find_category category_name = Some c →
        c ∈ DEFAULT_CATEGORIES ∧ lower c = lower category_name) ∧
  (∀ c, c ∈ DEFAULT_CATEGORIES → lower category_name = lower c →
        find_category category_name = Some c) ∧
  (find_category category_name = None →
   ∀ c, c ∈ DEFAULT_CATEGORIES → lower c ≠ lower category_name) ∧
  (Py.is_ascii category_name = true →
   ∀ c, find_category category_name = Some c ↔
        c ∈ DEFAULT_CATEGORIES ∧
        Py.ascii_lower c = Py.ascii_lower category_name) ∧
  find_category "documents" = Some "Documents" ∧
  find_category "SPREADSHEETS" = Some "Spreadsheets" ∧
  find_category "bOOks" = Some "Books" ∧
  find_category "Music" = None.
Proof.
  intros Hlower.
  assert (∀ c, find_category category_name = Some c →
               c ∈ DEFAULT_CATEGORIES ∧ lower c = lower category_name) as Hfound.
  { intros c Hfind. apply find_some in Hfind as [Hin Heq].
    split; [by apply list_elem_of_In|by apply String.eqb_eq]. }
  assert (∀ name c, c ∈ DEFAULT_CATEGORIES → lower name = lower c →
                    find_category name = Some c) as Hfind.
  { intros name c Hc Heq. unfold find_category. rewrite Heq.
    unfold DEFAULT_CATEGORIES in *.
    repeat (apply elem_of_cons in Hc as [-> | Hc];
            [cbn [find]; rewrite !Hlower by reflexivity; by vm_compute|]).
    by apply elem_of_nil in Hc. }
  assert (∀ c, c ∈ DEFAULT_CATEGORIES → Py.is_ascii c = true) as Hcats.
  { apply Forall_forall, (bool_decide_unpack _). by vm_compute. }
  split_and!.
  - done.
  - apply Hfind.
  - intros Hnone c Hc Heq. unfold find_category in Hnone.
    pose proof (find_none _ _ Hnone c) as Hf. cbn beta in Hf.
    rewrite (proj2 (String.eqb_eq _ _) Heq) in Hf.
    by specialize (Hf (proj1 (list_elem_of_In _ _) Hc)).
  - intros Hascii c. split.
    + intros [Hc Heq]%Hfound. split; [done|].
      by rewrite <- (Hlower c), <- (Hlower category_name) by auto.
    + intros [Hc Heq]. apply Hfind; [done|].
      by rewrite (Hlower c), (Hlower category_name) by auto.
  - apply Hfind; [by apply (bool_decide_unpack _)|].
    by rewrite !Hlower by reflexivity.
  - apply Hfind; [by apply (bool_decide_unpack _)|].
    by rewrite !Hlower by reflexivity.
  - apply Hfind; [by apply (bool_decide_unpack _)|].
    by rewrite !Hlower by reflexivity.
  - unfold find_category, DEFAULT_CATEGORIES. cbn [find].
    rewrite !Hlower by reflexivity. by vm_compute.
Qed.

(** ** The classifier in detail *)

Lemma dict_get_elem {V} k (v : V) d : Py.dict_get k d = Some v → v ∈ d.*2.
Proof.
  clear lower.
  induction d as [|[k' v'] d IH]; [done|]. cbn.
  destruct (String.eqb k' k); [intros [= ->]|]; set_solver.
Qed.

Lemma heuristic_category_closed file_type extension :
  heuristic_category file_type extension ∈ DEFAULT_CATEGORIES.
Proof.
  clear lower.
  assert (∀ c, c ∈ TYPE_TABLE.*2 ++ EXTENSION_TABLE.*2 ++ ["Other"] →
               c ∈ DEFAULT_CATEGORIES) as Hall.
  { apply Forall_forall, (bool_decide_unpack _). by vm_compute. }
  apply Hall. unfold heuristic_category.
  destruct (Py.dict_get file_type TYPE_TABLE) as [c|] eqn:Ht.
  { apply dict_get_elem in Ht. set_solver. }
  destruct (String.eqb file_type "document"); [|set_solver].
  destruct (Py.dict_get extension EXTENSION_TABLE) as [c|] eqn:He; [|set_solver].
  apply dict_get_elem in He. set_solver.
Qed.

(** X16. The heuristic classifier only ever answers with one of the ten
    fixed categories, for every file name and type; so does
    [analyze_file_with_ai] whenever it falls back, that is without a key
    or after a failed call. *)
Theorem analyze_file_name_closed now file_name file_type :
  (∃ c, md_category (analyze_file_name now file_name file_type) = Some c ∧
        c ∈ DEFAULT_CATEGORIES) ∧
  ∀ key classify info content,
    key = "" ∨
    classify (AiRequest (default "" (fi_name info))
                        (default "document" (fi_type info))
                        (default 0 (fi_size info))
                        (content_description content)) = None →
    ∃ c, md_category (analyze_file_with_ai key classify now info content) = Some c ∧
         c ∈ DEFAULT_CATEGORIES.
Proof.
  split.
  - eexists. split; [apply analyze_file_name_category|].
    apply heuristic_category_closed.
  - intros key classify info content Hfail.
    assert (analyze_file_with_ai key classify now info content
            = analyze_file_name now (default "" (fi_name info))
                                (default "document" (fi_type info))) as ->.
    { unfold analyze_file_with_ai. destruct Hfail as [Hkey | Hcall].
      - by rewrite Hkey.
      - rewrite Hcall. by destruct (String.eqb key ""). }
    eexists. split; [apply analyze_file_name_category|].
    apply heuristic_category_closed.
Qed.

Lemma lower_ascii_idem c : Py.lower_ascii (Py.lower_ascii c) = Py.lower_ascii c.
Proof. by destruct c as [[] [] [] [] [] [] [] []]. Qed.

Lemma lower_ascii_dot c : Ascii.eqb (Py.lower_ascii c) "." = Ascii.eqb c ".".
Proof. by destruct c as [[] [] [] [] [] [] [] []]. Qed.

Lemma ascii_lower_idem s : Py.ascii_lower (Py.ascii_lower s) = Py.ascii_lower s.
Proof.
  induction s as [|c s IH]; [done|]. cbn. by rewrite lower_ascii_idem, IH.
Qed.

Lemma lower_ascii_is_ascii c :
  (nat_of_ascii (Py.lower_ascii c) <? 128)%nat = (nat_of_ascii c <? 128)%nat.
Proof. by destruct c as [[] [] [] [] [] [] [] []]. Qed.

Lemma ascii_lower_is_ascii s : Py.is_ascii (Py.ascii_lower s) = Py.is_ascii s.
Proof.
  induction s as [|c s IH]; [done|]. cbn [Py.ascii_lower Py.is_ascii].
  by rewrite lower_ascii_is_ascii, IH.
Qed.

Lemma contains_dot_lower s :
  Py.contains "." (Py.ascii_lower s) = Py.contains "." s.
Proof.
  induction s as [|c s IH]; [done|]. cbn [Py.ascii_lower Py.contains].
  by rewrite lower_ascii_dot, IH.
Qed.

Lemma split_dot_lower s :
  Py.split "." (Py.ascii_lower s) = Py.ascii_lower <$> Py.split "." s.
Proof.
  induction s as [|c s IH]; [done|]. cbn [Py.ascii_lower Py.split].
  rewrite lower_ascii_dot, IH.
  destruct (Ascii.eqb c "."); [done|]. by destruct (Py.split "." s).
Qed.

Lemma last_item_lower l :
  Py.last_item (Py.ascii_lower <$> l) = Py.ascii_lower (Py.last_item l).
Proof.
  unfold Py.last_item. induction l as [|x l IH]; [done|].
  destruct l as [|y l]; [done|]. by rewrite fmap_cons, !last_cons_cons.
Qed.

(** X17. For a name written in ASCII the extension the classifiers derive
    is in normal form and depends on the name only up to case: it holds no
    dot and no upper-case letter, lower-casing leaves it unchanged, and a
    name and its lower-cased form get the same extension, hence the same
    heuristic category. *)
Theorem extension_of_normal file_name :
  Py.lower_on_ascii lower → Py.is_ascii file_name = true →
  Py.contains "." (extension_of file_name) = false ∧
  Py.is_ascii (extension_of file_name) = true ∧
  lower (extension_of file_name) = extension_of file_name ∧
  extension_of (lower file_name) = extension_of file_name ∧
  ∀ now file_type,
    md_category (analyze_file_name now (lower file_name) file_type)
    = md_category (analyze_file_name now file_name file_type).
Proof.
  intros Hlower Hascii.
  assert (Py.is_ascii (extension_of file_name) = true) as Hext.
  { rewrite extension_of_ascii by done.
    destruct (Py.contains "." file_name) eqn:Hc; [|done].
    rewrite ascii_lower_is_ascii.
    apply (last_dot_segment_ascii file_name); [|done].
    by apply split_last_segment. }
  assert (extension_of (lower file_name) = extension_of file_name) as Hcase.
  { rewrite (Hlower file_name) by done.
    rewrite !extension_of_ascii by (by rewrite ?ascii_lower_is_ascii).
    by rewrite contains_dot_lower, split_dot_lower, last_item_lower,
               ascii_lower_idem. }
  split_and!; [|done| |done|].
  - rewrite extension_of_ascii by done.
    destruct (Py.contains "." file_name) eqn:Hc; [|done].
    destruct (split_last_segment file_name Hc) as [Hseg _].
    by rewrite contains_dot_lower.
  - rewrite Hlower by done. rewrite extension_of_ascii by done.
    destruct (Py.contains "." file_name); [|done].
    apply ascii_lower_idem.
  - intros now file_type. unfold analyze_file_name. by rewrite Hcase.
Qed.

(** X18. Every record [analyze_file_with_ai] produces, on the AI path or
    on the fallback, is a fresh record: it has at most five tags, access
    count 0, no access time, the given creation time, and the extension
    derived from the file name. *)
Theorem analyze_file_with_ai_fresh key classify now info content :
  let m := analyze_file_with_ai key classify now info content in
  (length (md_tags m) ≤ 5)%nat ∧
  md_access_count m = 0 ∧ md_last_accessed m = None ∧
  md_created_at m = now ∧
  md_extension m = extension_of (default "" (fi_name info)).
Proof.
  cbn zeta. unfold analyze_file_with_ai.
  destruct (String.eqb key ""); [cbn; split_and!; eauto; lia|].
  destruct (classify _) as [result|]; [|cbn; split_and!; eauto; lia].
  cbn. split_and!; eauto. apply (slice_to_length _ 5).
Qed.

Lemma len_app (a b : string) :
  Py.len (a ++ b)%string = (Py.len a + Py.len b)%nat.
Proof.
  induction a as [|c a IH]; [done|].
  change (Py.len (String c (a ++ b)%string)
          = (Py.len (String c a) + Py.len b)%nat).
  cbn [Py.len]. rewrite IH. by destruct (Py.is_continuation c).
Qed.

Lemma len_prefix n s : Py.len (Py.prefix n s) = Nat.min n (Py.len s).
Proof.
  revert n. induction s as [|c s IH]; intros n; cbn [Py.prefix Py.len].
  - by rewrite Nat.min_0_r.
  - destruct (Py.is_continuation c) eqn:Hc.
    + cbn [Py.len]. by rewrite Hc, IH.
    + destruct n as [|n]; [done|]. cbn [Py.len]. rewrite Hc, IH.
      by rewrite Nat.succ_min_distr.
Qed.

(** X19. The description of the content that goes into the prompt is
    bounded whatever the size of the content: it never exceeds 525
    characters, a text of more than 500 characters being cut to its first
    500.  Characters are counted, not bytes: a text of 300 two-byte
    characters is passed whole. *)
Theorem content_description_bounded content :
  (Py.len (content_description content) ≤ 525)%nat ∧
  (∀ text, content = Some (TextContent text) → (500 < Py.len text)%nat →
           content_description content
           = ("File content excerpt: " ++ Py.prefix 500 text ++ "...")%string ∧
           Py.len (Py.prefix 500 text) = 500%nat ∧
           Py.len (content_description content) = 525%nat) ∧
  (∀ text, content = Some (TextContent text) → text ≠ "" →
           (Py.len text ≤ 500)%nat →
           content_description content = ("File content: " ++ text)%string) ∧
  let text := String.concat "" (repeat two_byte_character 300) in
  String.length text = 600%nat ∧ Py.len text = 300%nat ∧
  content_description (Some (TextContent text)) = ("File content: " ++ text)%string.
Proof.
  split_and!.
  - destruct content as [[text|[|b data]]|]; cbn [content_description];
      try (vm_compute; lia).
    destruct (String.eqb text ""); [vm_compute; lia|].
    destruct (Nat.ltb_spec 500 (Py.len text)).
    + rewrite !len_app, len_prefix.
      change (Py.len "File content excerpt: ") with 22%nat.
      change (Py.len "...") with 3%nat. lia.
    + rewrite len_app.
      change (Py.len "File content: ") with 14%nat. lia.
  - intros text -> Hlen. cbn [content_description].
    destruct (String.eqb_spec text "") as [->|_]; [cbn in Hlen; lia|].
    rewrite (proj2 (Nat.ltb_lt _ _) Hlen). split; [done|].
    rewrite !len_app, len_prefix.
    change (Py.len "File content excerpt: ") with 22%nat.
    change (Py.len "...") with 3%nat. lia.
  - intros text -> Hne Hlen. cbn [content_description].
    destruct (String.eqb_spec text ""); [done|].
    by rewrite (proj2 (Nat.ltb_ge _ _) Hlen).
  - by vm_compute.
Qed.

(** ** Access tracking and the read-only functions *)

(** X20. [track_file_access] changes one record at most: for an unknown
    identifier the store is unchanged; otherwise the set of known files
    and every other record stay as they are, and the record itself keeps
    its classification and creation time, gets the current access time
    and counts one access more. *)
Theorem track_file_access_frame now fm file_id :
  let fm' := track_file_access now fm file_id in
  (fm !! file_id = None → fm' = fm) ∧
  dom fm' = dom fm ∧
  (∀ f, f ≠ file_id → fm' !! f = fm !! f) ∧
  (∀ meta, fm !! file_id = Some meta →
     ∃ meta', fm' !! file_id = Some meta' ∧
       md_category meta' = md_category meta ∧ md_tags meta' = md_tags meta ∧
       md_extension meta' = md_extension meta ∧
       md_description meta' = md_description meta ∧
       md_ai_analyzed meta' = md_ai_analyzed meta ∧
       md_created_at meta' = md_created_at meta ∧
       md_last_accessed meta' = Some now ∧
       md_access_count meta' = md_access_count meta + 1).
Proof.
  clear lower.
  cbn zeta. unfold track_file_access.
  destruct (fm !! file_id) as [meta|] eqn:Hm.
  - split_and!; [done| | |].
    + rewrite dom_insert_L. apply elem_of_dom_2 in Hm. set_solver.
    + intros f Hne. by rewrite lookup_insert_ne.
    + intros ? [= <-]. rewrite lookup_insert_eq. eauto 12.
  - split_and!; done.
Qed.

Lemma track_file_access_same_classification now fm file_id :
  same_classification fm (track_file_access now fm file_id).
Proof.
  intros k. unfold track_file_access.
  destruct (fm !! file_id) as [meta|] eqn:Hm; [|done].
  rewrite lookup_insert. case_decide; [subst; by rewrite Hm|done].
Qed.

Lemma same_classification_lookup fm fm' k :
  same_classification fm fm' →
  match fm !! k, fm' !! k with
  | Some m, Some m' => md_category m = md_category m' ∧ md_tags m = md_tags m'
  | None, None => True
  | _, _ => False
  end.
Proof.
  intros H. specialize (H k).
  destruct (fm !! k), (fm' !! k); cbn in H; by simplify_eq.
Qed.

Lemma get_recommendations_same fm fm' up user_id catalog count :
  same_classification fm fm' →
  get_recommendations fm up user_id catalog count
  = get_recommendations fm' up user_id catalog count.
Proof.
  intros H. unfold get_recommendations.
  destruct (up !! user_id) as [prefs|]; [|done].
  do 3 f_equal. apply fold_left_ext_in. intros acc [k i] _.
  case_bool_decide; [done|]. f_equal. unfold recommendation_score.
  pose proof (same_classification_lookup fm fm' (meta_id_of k i) H) as Hk.
  destruct (fm !! meta_id_of k i), (fm' !! meta_id_of k i); try done.
  destruct Hk as [-> ->]. done.
Qed.

Lemma get_similar_files_same fm fm' file_id catalog count :
  same_classification fm fm' →
  get_similar_files fm file_id catalog count
  = get_similar_files fm' file_id catalog count.
Proof.
  intros H. unfold get_similar_files.
  pose proof (same_classification_lookup fm fm'
                (reference_meta_id file_id catalog) H) as Href.
  destruct (fm !! reference_meta_id file_id catalog),
           (fm' !! reference_meta_id file_id catalog); try done.
  destruct Href as [-> ->].
  do 3 f_equal. apply fold_left_ext_in. intros acc [k i] _.
  destruct (String.eqb k file_id); [done|].
  pose proof (same_classification_lookup fm fm' (meta_id_of k i) H) as Hk.
  destruct (fm !! meta_id_of k i), (fm' !! meta_id_of k i); try done.
  destruct Hk as [Hc Ht]. f_equal. unfold similarity_score. by rewrite Hc, Ht.
Qed.

Lemma organize_files_by_category_same fm fm' catalog :
  same_classification fm fm' →
  organize_files_by_category fm catalog = organize_files_by_category fm' catalog.
Proof.
  intros H. unfold organize_files_by_category. f_equal.
  apply fold_left_ext_in. intros acc [k i] _.
  pose proof (same_classification_lookup fm fm' (meta_id_of k i) H) as Hk.
  destruct (fm !! meta_id_of k i), (fm' !! meta_id_of k i); try done.
  destruct Hk as [-> _]. done.
Qed.

(** X21. Counting an access never changes what the read-only functions
    answer: recommendations, similar files and the organisation by
    category are the same before and after [track_file_access], for every
    user, reference, catalog and count. *)
Theorem track_file_access_keeps_rankings
    now fm file_id up user_id reference catalog count :
  let fm' := track_file_access now fm file_id in
  get_recommendations fm' up user_id catalog count
  = get_recommendations fm up user_id catalog count ∧
  get_similar_files fm' reference catalog count
  = get_similar_files fm reference catalog count ∧
  organize_files_by_category fm' catalog = organize_files_by_category fm catalog.
Proof.
  cbn zeta.
  pose proof (track_file_access_same_classification now fm file_id) as H.
  split_and!; symmetry;
    [by apply get_recommendations_same
    |by apply get_similar_files_same
    |by apply organize_files_by_category_same].
Qed.

(** ** Repeated accesses and the stores the tracker builds *)

(** X22. Accessing the same file twice in a row leaves
    [recently_accessed] as it is after the first access (whatever the
    list was before), while the weights keep growing with every access. *)
Theorem record_access_twice fm up user_id file_id meta :
  file_id ≠ "" → fm !! file_id = Some meta →
  let once := record_access fm up user_id file_id in
  let twice := record_access fm once user_id file_id in
  recent_of twice user_id = recent_of once user_id ∧
  ∀ t, tag_weight twice user_id t
       = tag_weight up user_id t + 2 * occurrences t (md_tags meta).
Proof.
  intros Hf Hm. cbn zeta. unfold recent_of, tag_weight.
  destruct (record_access_effect fm (record_access fm up user_id file_id)
              user_id file_id meta Hf Hm) as (Hr2 & Ht2 & _).
  destruct (record_access_effect fm up user_id file_id meta Hf Hm)
    as (Hr1 & Ht1 & _).
  split.
  - rewrite Hr2, Hr1. cbn [take].
    rewrite bool_decide_eq_true_2 by apply list_elem_of_here.
    cbn [Py.remove]. rewrite String.eqb_refl. cbn [take].
    by rewrite take_take.
  - intros t. rewrite Ht2, Ht1. lia.
Qed.

Lemma record_access_twice_witness :
  "f1" ≠ "" ∧
  sample_metadata !! "f1" =
    Some (Metadata (Some "Code") "py" ["python"] None false None 0 "t0") ∧
  let up : gmap string preferences := {["7" := sample_preferences]} in
  let once := record_access sample_metadata up "7" "f1" in
  let twice := record_access sample_metadata once "7" "f1" in
  recent_of twice "7" = recent_of once "7" ∧
  ∀ t, tag_weight twice "7" t
       = tag_weight up "7" t + 2 * occurrences t ["python"].
Proof.
  split; [discriminate|]. split; [reflexivity|].
  apply (record_access_twice sample_metadata {["7" := sample_preferences]}
           "7" "f1" _ ltac:(discriminate) eq_refl).
Defined.

Lemma tracker_reachable_weights up :
  tracker_reachable up →
  ∀ u k, 0 ≤ category_weight up u k ∧ 0 ≤ tag_weight up u k.
Proof.
  induction 1 as [|fm up user_id file_id category tags ep _ IH]; intros u k.
  - unfold category_weight, tag_weight, prefs_of, weight.
    rewrite lookup_empty. cbn [default from_option empty_preferences
                               favorite_categories favorite_tags].
    by rewrite !lookup_empty.
  - unfold category_weight, tag_weight in *. rewrite prefs_of_update.
    case_decide; subst; [|apply IH].
    destruct (updated_record_le fm (prefs_of up u) file_id category tags ep)
      as [Hc Ht].
    specialize (IH u k). specialize (Hc k). specialize (Ht k). lia.
Qed.

Lemma recommendation_score_nonneg fm (fc ft : gmap string Z) file_id info :
  (∀ k, 0 ≤ weight fc k) → (∀ k, 0 ≤ weight ft k) →
  0 ≤ recommendation_score fm fc ft file_id info.
Proof.
  intros Hc Ht. unfold recommendation_score.
  destruct (fm !! _) as [meta|]; [|done]. rewrite tag_loop_sum.
  assert (0 ≤ foldr Z.add 0 (weight ft <$> md_tags meta)) as Hsum.
  { induction (md_tags meta) as [|t ts IH]; [done|]. cbn. specialize (Ht t). lia. }
  destruct (md_category meta) as [c|]; [|lia].
  destruct (Py.truthy (Some c)); [|lia].
  specialize (Hc c). unfold weight in Hc.
  destruct (fc !! c); cbn in Hc; lia.
Qed.

(** X23. In every store the tracker builds from the empty one all
    category and tag weights are non-negative, and so is the score the
    recommender gives any file; a file without a metadata record scores
    0, the lowest score there is on such a store. *)
Theorem tracker_reachable_nonnegative up :
  tracker_reachable up →
  (∀ u k, 0 ≤ category_weight up u k ∧ 0 ≤ tag_weight up u k) ∧
  ∀ fm u prefs file_id info,
    up !! u = Some prefs →
    0 ≤ recommendation_score fm (favorite_categories prefs)
                             (favorite_tags prefs) file_id info ∧
    (fm !! meta_id_of file_id info = None →
     recommendation_score fm (favorite_categories prefs)
                          (favorite_tags prefs) file_id info = 0).
Proof.
  intros Hreach. pose proof (tracker_reachable_weights up Hreach) as Hw.
  split; [done|]. intros fm u prefs file_id info Hp. split.
  - apply recommendation_score_nonneg; intros k; specialize (Hw u k);
      unfold category_weight, tag_weight, prefs_of in Hw; rewrite Hp in Hw;
      apply Hw.
  - intros Hnone. unfold recommendation_score. by rewrite Hnone.
Qed.

Lemma tracker_reachable_nonnegative_witness :
  let up := record_access sample_metadata ∅ "7" "f1" in
  tracker_reachable up ∧
  (∀ u k, 0 ≤ category_weight up u k ∧ 0 ≤ tag_weight up u k) ∧
  ∀ fm u prefs file_id info,
    up !! u = Some prefs →
    0 ≤ recommendation_score fm (favorite_categories prefs)
                             (favorite_tags prefs) file_id info ∧
    (fm !! meta_id_of file_id info = None →
     recommendation_score fm (favorite_categories prefs)
                          (favorite_tags prefs) file_id info = 0).
Proof.
  assert (tracker_reachable (record_access sample_metadata ∅ "7" "f1")) as Hr
    by apply reachable_update, reachable_empty.
  split; [exact Hr|].
  apply (tracker_reachable_nonnegative _ Hr).
Defined.

End Program.

(** * The properties at work, with the ASCII lower-casing for [str.lower] *)

Lemma analyze_file_name_heuristic_witness :
  Py.lower_on_ascii Py.ascii_lower ∧
  let m := analyze_file_name Py.ascii_lower "t0" "Holiday.Photos.JPG" "document" in
  (if Py.contains "." "Holiday.Photos.JPG"
   then ∃ seg, last_dot_segment "Holiday.Photos.JPG" seg ∧
               md_extension m = Py.ascii_lower seg ∧
               (Py.is_ascii "Holiday.Photos.JPG" = true →
                md_extension m = Py.ascii_lower seg)
   else md_extension m = "") ∧
  md_category m = Some (heuristic_category "document" (md_extension m)) ∧
  heuristic_category "photo" (md_extension m) = "Images" ∧
  heuristic_category "video" (md_extension m) = "Videos" ∧
  heuristic_category "audio" (md_extension m) = "Audio" ∧
  md_tags m = [] ∧ md_description m = None ∧ md_ai_analyzed m = false ∧
  md_category (analyze_file_name Py.ascii_lower "t0" "report.pdf" "document")
  = Some "Documents" ∧
  md_extension (analyze_file_name Py.ascii_lower "t0" "report.pdf" "document")
  = "pdf" ∧
  md_category (analyze_file_name Py.ascii_lower "t0" "REPORT.PDF" "document")
  = Some "Documents" ∧
  md_extension (analyze_file_name Py.ascii_lower "t0" "REPORT.PDF" "document")
  = "pdf" ∧
  md_category (analyze_file_name Py.ascii_lower "t0" "Clip.final.MKV" "document")
  = Some "Videos" ∧
  md_extension (analyze_file_name Py.ascii_lower "t0" "Clip.final.MKV" "document")
  = "mkv".
Proof.
  split; [intros s _; reflexivity|].
  apply (analyze_file_name_heuristic Py.ascii_lower "t0" "Holiday.Photos.JPG"
           "document").
  intros s _; reflexivity.
Defined.

(** The heuristic classifier on sample names: the last segment counts, a
    trailing dot gives the empty extension, and the transport type is
    compared as it is. *)
Example extension_of_samples :
  extension_of Py.ascii_lower "Holiday.Photos.JPG" = "jpg" ∧
  extension_of Py.ascii_lower "README" = "" ∧
  extension_of Py.ascii_lower "archive." = "" ∧
  extension_of Py.ascii_lower ".gitignore" = "gitignore" ∧
  md_category (analyze_file_name Py.ascii_lower "t0" "Holiday.Photos.JPG" "document")
  = Some "Images" ∧
  md_category (analyze_file_name Py.ascii_lower "t0" "clip.mp4" "Video")
  = Some "Other".
Proof. by vm_compute. Qed.

(** A reply with seven tags and a category outside the fixed set. *)
Example analyze_file_with_ai_unrecognized :
  let reply := AiResult (Some "Memes") (Some ["a"; "b"; "c"; "d"; "e"; "f"; "g"]) None in
  let m := analyze_file_with_ai Py.ascii_lower "sk-key" (λ _, Some reply) "t0"
             (FileInfo (Some "cat.PNG") (Some "photo") (Some 10) None) None in
  md_category m = Some "Memes" ∧ md_tags m = ["a"; "b"; "c"; "d"; "e"] ∧
  md_extension m = "png" ∧ "Memes" ∉ DEFAULT_CATEGORIES.
Proof.
  cbn zeta. repeat split. unfold DEFAULT_CATEGORIES.
  repeat (apply not_elem_of_cons; split; [congruence|]); apply not_elem_of_nil.
Qed.

Lemma classify_upload_effect_witness :
  let info := FileInfo (Some "b.py") (Some "document") (Some 3) (Some "f2") in
  "f2" ≠ "" ∧ NoDup sample_catalog.*1 ∧
  let '(fm', up') :=
    classify_upload Py.ascii_lower "" (λ _, None) "t1" sample_metadata ∅ "7" "f2"
                    info in
  fm' !! "f2"
  = Some (analyze_file_with_ai Py.ascii_lower "" (λ _, None) "t1" info None) ∧
  access_count_of fm' "f2" = 0 ∧
  (∀ f, f ≠ "f2" → fm' !! f = sample_metadata !! f) ∧
  head (recent_of up' "7") = Some "f2" ∧
  "f2" ∉ get_recommendations fm' up' "7" sample_catalog 8.
Proof.
  assert (NoDup sample_catalog.*1) as Hnd
    by (apply (bool_decide_unpack _); vm_compute; exact I).
  cbn zeta. split; [discriminate|]. split; [exact Hnd|].
  apply (classify_upload_effect Py.ascii_lower "" (λ _, None) "t1"
           sample_metadata ∅ "7" "f2"
           (FileInfo (Some "b.py") (Some "document") (Some 3) (Some "f2"))
           sample_catalog 8);
    [discriminate|exact Hnd].
Defined.

Lemma find_category_case_insensitive_witness :
  Py.lower_on_ascii Py.ascii_lower ∧
  (∀ c, find_category Py.ascii_lower "bOOks" = Some c →
        c ∈ DEFAULT_CATEGORIES ∧ Py.ascii_lower c = Py.ascii_lower "bOOks") ∧
  (∀ c, c ∈ DEFAULT_CATEGORIES → Py.ascii_lower "bOOks" = Py.ascii_lower c →
        find_category Py.ascii_lower "bOOks" = Some c) ∧
  (find_category Py.ascii_lower "bOOks" = None →
   ∀ c, c ∈ DEFAULT_CATEGORIES → Py.ascii_lower c ≠ Py.ascii_lower "bOOks") ∧
  (Py.is_ascii "bOOks" = true →
   ∀ c, find_category Py.ascii_lower "bOOks" = Some c ↔
        c ∈ DEFAULT_CATEGORIES ∧ Py.ascii_lower c = Py.ascii_lower "bOOks") ∧
  find_category Py.ascii_lower "documents" = Some "Documents" ∧
  find_category Py.ascii_lower "SPREADSHEETS" = Some "Spreadsheets" ∧
  find_category Py.ascii_lower "bOOks" = Some "Books" ∧
  find_category Py.ascii_lower "Music" = None.
Proof.
  split; [intros s _; reflexivity|].
  apply (find_category_case_insensitive Py.ascii_lower "bOOks").
  intros s _; reflexivity.
Defined.

Lemma extension_of_normal_witness :
  Py.lower_on_ascii Py.ascii_lower ∧ Py.is_ascii "Holiday.Photos.JPG" = true ∧
  Py.contains "." (extension_of Py.ascii_lower "Holiday.Photos.JPG") = false ∧
  Py.is_ascii (extension_of Py.ascii_lower "Holiday.Photos.JPG") = true ∧
  Py.ascii_lower (extension_of Py.ascii_lower "Holiday.Photos.JPG")
  = extension_of Py.ascii_lower "Holiday.Photos.JPG" ∧
  extension_of Py.ascii_lower (Py.ascii_lower "Holiday.Photos.JPG")
  = extension_of Py.ascii_lower "Holiday.Photos.JPG" ∧
  ∀ now file_type,
    md_category (analyze_file_name Py.ascii_lower now
                   (Py.ascii_lower "Holiday.Photos.JPG") file_type)
    = md_category (analyze_file_name Py.ascii_lower now "Holiday.Photos.JPG"
                     file_type).
Proof.
  split; [intros s _; reflexivity|]. split; [reflexivity|].
  apply (extension_of_normal Py.ascii_lower "Holiday.Photos.JPG");
    [intros s _; reflexivity|reflexivity].
Defined.
